(** * Grbl status reporting (report.c): the outgoing wire protocol

    A shallow embedding of Grbl's reporting layer.  The functions of
    [report.c] are translated as computations that record, in order, the
    calls they make on their collaborators: the number formatters declared
    in [print.h], the coordinate read of the settings module and the delay
    primitive.  The bytes on the serial line are obtained by rendering
    that record. *)

From Stdlib Require Import ZArith String Ascii List Bool Lia.
From Stdlib Require Import Floats.SpecFloat DecimalString.
From stdpp Require Import base list.
Import ListNotations.

Local Open Scope Z_scope.

(** ** Characters and strings *)

Definition CR : ascii := ascii_of_nat 13.
Definition LF : ascii := ascii_of_nat 10.

(** The line ending ["\r\n"] of every frame. *)
Definition CRLF : string := String CR (String LF EmptyString).

Definition to_uint8 (n : Z) : Z := n mod 256.

(** [n + '0'] for a digit value [n]. *)
Definition digit_char (n : Z) : ascii := ascii_of_nat (Z.to_nat (n + 48)).

(** ** NumericFormatter: the integer printers of print.c *)

(** Modelled from the spec: the body of [print_unsigned_base10] is in
    print.c; only its prototype, in print.h, is available.  "Implemented by
    repeated remainder extraction into a reversed local buffer, then emitted
    in correct order"; [extract_digits] fills the buffer, least significant
    digit first, and [buf] is its size. *)
Fixpoint extract_digits (buf : nat) (n : Z) : list ascii :=
  match buf with
  | O => []
  | S buf' =>
      if 0 <? n then digit_char (n mod 10) :: extract_digits buf' (n / 10)
      else []
  end.

(** Modelled from the spec: the second half of the printers of print.c,
    the buffer "emitted in correct order", last digit stored first out. *)
Definition emit_reversed (buf : list ascii) : string :=
  string_of_list_ascii (rev buf).

(** Modelled from the spec: "renders a non-negative integer in base 10 with
    no leading zeros (renders 0 for zero)", with a buffer for "10 digits".
    The parameter type is the one print.h declares,
    [void print_unsigned_base10(uint8_t n)]: the argument is converted to
    [uint8_t] on entry. *)
Definition print_unsigned_base10_text (n : Z) : string :=
  let n := to_uint8 n in
  if n =? 0 then "0"%string else emit_reversed (extract_digits 10 n).

(** Modelled from the spec: the same digit loop of print.c for a magnitude
    of any size (the integer part of a float, and [printInteger]), with a
    buffer as long as the number needs. *)
Definition decimal_text (n : Z) : string :=
  if n <=? 0 then "0"%string
  else emit_reversed (extract_digits (S (Z.to_nat (Z.log2 n))) n).

(** Modelled from the spec: [printInteger] of print.c, "as above, preceded
    by - if negative; magnitude computed on the unsigned domain". *)
Definition printInteger_text (n : Z) : string :=
  if n <? 0 then String "-" (decimal_text (- n)) else decimal_text n.

(** Modelled from the spec: [print_base2] of print.c, "renders exactly
    bitWidth binary digits, most-significant bit first, no separators". *)
Fixpoint base2_digits (width : nat) (n : Z) : string :=
  match width with
  | O => EmptyString
  | S w =>
      String (if Z.testbit n (Z.of_nat w) then "1"%char else "0"%char)
             (base2_digits w n)
  end.

(** Modelled from the spec: [print_base2(n, size)] of print.c, [size] being
    the bit width the caller passes. *)
Definition print_base2_text (n size : Z) : string :=
  base2_digits (Z.to_nat size) n.

(** ** Floating point *)

(** The arithmetic on C [float] that report.c uses, and the float printer
    of print.c. *)
Class FloatArith (F : Type) := {
  f_add : F -> F -> F;
  f_sub : F -> F -> F;
  f_mul : F -> F -> F;
  f_div : F -> F -> F;
  f_neg : F -> F;
  (** conversion of an integer operand to [float] *)
  f_of_int : Z -> F;
  (** [printFloat] at a given [settings.decimal_places] *)
  printFloat_text : Z -> F -> string
}.

#[export] Instance float_inhabited `{FloatArith F} : Inhabited F :=
  populate (f_of_int 0).

(** *** IEEE 754 binary32 *)

Module Binary32.

Definition prec : Z := 24.
Definition emax : Z := 128.

Definition of_int (n : Z) : spec_float := binary_normalize prec emax n 0 false.

(** Modelled from the spec: the fraction of [printFloat] (print.c), a
    fixed number [d] of digits of [n], most significant first, zero
    padded. *)
Fixpoint fixed_digits (d : nat) (n : Z) : string :=
  match d with
  | O => EmptyString
  | S d' => (fixed_digits d' (n / 10) ++ String (digit_char (n mod 10)) EmptyString)%string
  end.

(** Modelled from the spec: the rounding of [printFloat] (print.c),
    [m * 2^e * 10^d] rounded to an integer, halves away from zero. *)
Definition scale_round (d : Z) (m : positive) (e : Z) : Z :=
  if 0 <=? e then Z.pos m * 2 ^ e * 10 ^ d
  else (2 * (Z.pos m * 10 ^ d) + 2 ^ (- e)) / 2 ^ (1 - e).

(** Modelled from the spec: the digits of [printFloat] (print.c) for a
    magnitude [r / 10^d]: integer part, point, [d] fraction digits. *)
Definition fixed_point_text (d : Z) (r : Z) : string :=
  (decimal_text (r / 10 ^ d) ++ "." ++ fixed_digits (Z.to_nat d) (r mod 10 ^ d))%string.

(** Modelled from the spec: the body of [printFloat] is in print.c; only
    its prototype, in print.h, is available.  "Renders a floating value with a
    caller-visible fixed number of fractional digits", "must round
    half-away-from-zero at the chosen precision, strip no trailing
    zeros", and signs negative values; a negative value that rounds to
    zero keeps its sign ("-0.000"), as the spec leaves open.  The spec
    gives no rendering for infinities and NaN; they are shown as [inf]
    and [nan]. *)
Definition printFloat (decimal_places : Z) (x : spec_float) : string :=
  match x with
  | S754_zero _ => fixed_point_text decimal_places 0
  | S754_finite s m e =>
      ((if s then "-" else "") ++
       fixed_point_text decimal_places (scale_round decimal_places m e))%string
  | S754_infinity s => ((if s then "-" else "") ++ "inf")%string
  | S754_nan => "nan"%string
  end.

#[global] Instance arith : FloatArith spec_float := {|
  f_add := SFadd prec emax;
  f_sub := SFsub prec emax;
  f_mul := SFmul prec emax;
  f_div := SFdiv prec emax;
  f_neg := SFopp;
  f_of_int := of_int;
  printFloat_text := printFloat
|}.

End Binary32.


(** ** Calls on the collaborators *)

(** What report.c asks of the outside: the printers of print.h, the
    coordinate read of settings.h and the delay of nuts_bolts.h. *)
Inductive call (F : Type) : Type :=
| PgmString (s : string)
| UnsignedBase10 (n : Z)
| Integer (n : Z)
| Float (x : F)
| Base2 (n size : Z)
| ReadCoordData (coord_select : Z)
| DelayMs (ms : Z).

Arguments PgmString {F} s.
Arguments UnsignedBase10 {F} n.
Arguments Integer {F} n.
Arguments Float {F} x.
Arguments Base2 {F} n size.
Arguments ReadCoordData {F} coord_select.
Arguments DelayMs {F} ms.

(** A computation: the calls made, in order, and the value returned. *)
Definition io (F A : Type) : Type := (list (call F) * A)%type.

Definition ret {F A} (a : A) : io F A := ([], a).

Definition bind {F A B} (m : io F A) (k : A -> io F B) : io F B :=
  let (t, a) := m in let (t', b) := k a in (t ++ t', b).

Definition calls {F A} (m : io F A) : list (call F) := fst m.
Definition result {F A} (m : io F A) : A := snd m.

Declare Scope io_scope.
Delimit Scope io_scope with io.
Notation "x <- m ;; k" := (bind m (fun x => k))
  (at level 100, m at level 99, k at level 200, right associativity) : io_scope.
Notation "m ;; k" := (bind m (fun _ => k))
  (at level 100, k at level 200, right associativity) : io_scope.
Local Open Scope io_scope.

Definition emit {F} (c : call F) : io F unit := ([c], tt).

Definition printPgmString {F} (s : string) : io F unit := emit (PgmString s).
Definition print_unsigned_base10 {F} (n : Z) : io F unit := emit (UnsignedBase10 n).
Definition printInteger {F} (n : Z) : io F unit := emit (Integer n).
Definition printFloat {F} (n : F) : io F unit := emit (Float n).
Definition delay_ms {F} (ms : Z) : io F unit := emit (DelayMs ms).

(** [switch (x) { case l: k; break; ... default: d }]: the case whose label
    equals [x], else the default. *)
Fixpoint switch {A} (x : Z) (cases : list (Z * A)) (default : A) : A :=
  match cases with
  | [] => default
  | (label, k) :: cases' => if x =? label then k else switch x cases' default
  end.

(** [for (i = from; i < from + n; i++) s = body(i, s)]. *)
Fixpoint for_loop {F St} (body : nat -> St -> io F St) (from n : nat) (s : St) : io F St :=
  match n with
  | O => ret s
  | S n' => s' <- body from s ;; for_loop body (S from) n' s'
  end.

(** The text a call puts on the serial line; [decimal_places] is the
    setting [printFloat] reads. *)
Definition call_text `{FloatArith F} (decimal_places : Z) (c : call F) : string :=
  match c with
  | PgmString s => s
  | UnsignedBase10 n => print_unsigned_base10_text n
  | Integer n => printInteger_text n
  | Float x => printFloat_text decimal_places x
  | Base2 n size => print_base2_text n size
  | ReadCoordData _ => EmptyString
  | DelayMs _ => EmptyString
  end.

Definition serial_text `{FloatArith F} (decimal_places : Z) (t : list (call F)) : string :=
  fold_right (fun c rest => (call_text decimal_places c ++ rest)%string) EmptyString t.

(** ** The headers report.c includes

    The contents of report.h, system.h, settings.h, nuts_bolts.h and
    config.h are not available.  The macros report.c takes from them are
    parameters of the model, one class per header. *)

(** report.h: status codes ([STATUS_OK] is the literal 0 in report.c) and
    alarm codes. *)
Class report_h := {
  STATUS_EXPECTED_COMMAND_LETTER : Z;
  STATUS_BAD_NUMBER_FORMAT : Z;
  STATUS_INVALID_STATEMENT : Z;
  STATUS_NEGATIVE_VALUE : Z;
  STATUS_SETTING_DISABLED : Z;
  STATUS_SETTING_STEP_PULSE_MIN : Z;
  STATUS_SETTING_READ_FAIL : Z;
  STATUS_IDLE_ERROR : Z;
  STATUS_ALARM_LOCK : Z;
  STATUS_SOFT_LIMIT_ERROR : Z;
  STATUS_OVERFLOW : Z;
  STATUS_GCODE_MODAL_GROUP_VIOLATION : Z;
  STATUS_GCODE_UNSUPPORTED_COMMAND : Z;
  STATUS_GCODE_UNDEFINED_FEED_RATE : Z;
  ALARM_LIMIT_ERROR : Z;
  ALARM_ABORT_CYCLE : Z;
  ALARM_PROBE_FAIL : Z
}.

(** system.h: the values of [sys.state]. *)
Class system_h := {
  STATE_IDLE : Z;
  STATE_QUEUED : Z;
  STATE_CYCLE : Z;
  STATE_HOLD : Z;
  STATE_HOMING : Z;
  STATE_ALARM : Z;
  STATE_CHECK_MODE : Z
}.

(** settings.h: the bits of [settings.flags], the index of the last
    coordinate slot, and the bit sizes [sizeof(n)*8] that the [print_base2]
    macro of print.h takes from the types of the three mask fields. *)
Class settings_h := {
  BITFLAG_REPORT_INCHES : Z;
  BITFLAG_AUTO_START : Z;
  BITFLAG_INVERT_ST_ENABLE : Z;
  BITFLAG_INVERT_LIMIT_PINS : Z;
  BITFLAG_SOFT_LIMIT_ENABLE : Z;
  BITFLAG_HARD_LIMIT_ENABLE : Z;
  BITFLAG_HOMING_ENABLE : Z;
  SETTING_INDEX_NCOORD : nat;
  bits_step_invert_mask : Z;
  bits_dir_invert_mask : Z;
  bits_homing_dir_mask : Z
}.

(** nuts_bolts.h: the axes and the unit conversion factor.  [N_AXIS] and
    [SETTING_INDEX_NCOORD] are small counts within the range of the
    [uint8_t] loop counters of report.c. *)
Class nuts_bolts_h (F : Type) := {
  N_AXIS : nat;
  X_AXIS : nat;
  Y_AXIS : nat;
  Z_AXIS : nat;
  INCH_PER_MM : F
}.

(** config.h: whether [USE_LINE_NUMBERS] is defined. *)
Class config_h := {
  USE_LINE_NUMBERS : bool
}.

(** Modelled from the spec: [bit_istrue(x,mask)] is a macro of nuts_bolts.h;
    a flag "is set" when the masked bits of the flags word are not all
    zero. *)
Definition bit_istrue (x mask : Z) : bool := negb (Z.land x mask =? 0).

(** ** Data model: the globals report.c reads *)

(** [settings] (settings.h). *)
Record settings_t (F : Type) := {
  steps_per_mm : list F;
  max_rate : list F;
  acceleration : list F;
  max_travel : list F;
  pulse_microseconds : Z;
  step_invert_mask : Z;
  dir_invert_mask : Z;
  stepper_idle_lock_time : Z;
  junction_deviation : F;
  arc_tolerance : F;
  decimal_places : Z;
  flags : Z;
  homing_dir_mask : Z;
  homing_feed_rate : F;
  homing_seek_rate : F;
  homing_debounce_delay : Z;
  homing_pulloff : F
}.

Arguments steps_per_mm {F} _.
Arguments max_rate {F} _.
Arguments acceleration {F} _.
Arguments max_travel {F} _.
Arguments pulse_microseconds {F} _.
Arguments step_invert_mask {F} _.
Arguments dir_invert_mask {F} _.
Arguments stepper_idle_lock_time {F} _.
Arguments junction_deviation {F} _.
Arguments arc_tolerance {F} _.
Arguments decimal_places {F} _.
Arguments flags {F} _.
Arguments homing_dir_mask {F} _.
Arguments homing_feed_rate {F} _.
Arguments homing_seek_rate {F} _.
Arguments homing_debounce_delay {F} _.
Arguments homing_pulloff {F} _.

(** [sys] (system.h): machine state and positions in steps ([int32_t]). *)
Record system_t := {
  state : Z;
  position : list Z;
  probe_position : list Z
}.

(** [gc_state] (gcode.h): the fields report.c reads for the offsets. *)
Record parser_state_t (F : Type) := {
  coord_system : list F;
  coord_offset : list F
}.

Arguments coord_system {F} _.
Arguments coord_offset {F} _.

(** A planner block (planner.h), as far as report.c looks into it. *)
Record plan_block_t := {
  line_number : Z
}.

(** ** report.c *)

Section Report.

Context {F : Type} `{FloatArith F}.
Context `{report_h} `{system_h} `{settings_h} `{nuts_bolts_h F} `{config_h}.

(** The globals. *)
Variable settings : settings_t F.
Variable sys : system_t.
Variable gc_state : parser_state_t F.

(** The coordinate data the settings module holds for each slot; [None]
    where the read fails. *)
Variable coord_data_store : nat -> option (list F).

(** The block the planner is executing, if any. *)
Variable current_block : option plan_block_t.

(** [settings_read_coord_data(coord_select, coord_data)]: the attempt is
    recorded; the data read, or the failure, is returned. *)
Definition settings_read_coord_data (coord_select : nat) : io F (option (list F)) :=
  emit (ReadCoordData (Z.of_nat coord_select)) ;;
  ret (coord_data_store coord_select).

Definition plan_get_current_block : option plan_block_t := current_block.

(** The [print_base2(n)] macro of print.h passes [sizeof(n)*8]. *)
Definition print_base2 (n size : Z) : io F unit := emit (Base2 n size).

Definition report_status_message (status_code : Z) : io F unit :=
  let status_code := to_uint8 status_code in
  if status_code =? 0 then
    printPgmString ("ok" ++ CRLF)
  else
    printPgmString "error: " ;;
    switch status_code
      [ (STATUS_EXPECTED_COMMAND_LETTER, printPgmString "Expected command letter");
        (STATUS_BAD_NUMBER_FORMAT, printPgmString "Bad number format");
        (STATUS_INVALID_STATEMENT, printPgmString "Invalid statement");
        (STATUS_NEGATIVE_VALUE, printPgmString "Value < 0");
        (STATUS_SETTING_DISABLED, printPgmString "Setting disabled");
        (STATUS_SETTING_STEP_PULSE_MIN, printPgmString "Value < 3 usec");
        (STATUS_SETTING_READ_FAIL, printPgmString "EEPROM read fail. Using defaults");
        (STATUS_IDLE_ERROR, printPgmString "Not idle");
        (STATUS_ALARM_LOCK, printPgmString "Alarm lock");
        (STATUS_SOFT_LIMIT_ERROR, printPgmString "Homing not enabled");
        (STATUS_OVERFLOW, printPgmString "Line overflow");
        (STATUS_GCODE_MODAL_GROUP_VIOLATION, printPgmString "Modal group violation");
        (STATUS_GCODE_UNSUPPORTED_COMMAND, printPgmString "Unsupported command");
        (STATUS_GCODE_UNDEFINED_FEED_RATE, printPgmString "Undefined feed rate") ]
      (printPgmString "Invalid gcode ID:" ;;
       print_unsigned_base10 status_code) ;;
    printPgmString CRLF.

(** Conversion to the [int8_t] parameter of [report_alarm_message]. *)
Definition to_int8 (n : Z) : Z := (n + 128) mod 256 - 128.

Definition report_alarm_message (alarm_code : Z) : io F unit :=
  let alarm_code := to_int8 alarm_code in
  printPgmString "ALARM: " ;;
  switch alarm_code
    [ (ALARM_LIMIT_ERROR, printPgmString "Hard/soft limit");
      (ALARM_ABORT_CYCLE, printPgmString "Abort during cycle");
      (ALARM_PROBE_FAIL, printPgmString "Probe fail") ]
    (ret tt) ;;
  printPgmString CRLF ;;
  delay_ms 500.

Definition report_grbl_settings : io F unit :=
  printPgmString "$0=" ;; printFloat (steps_per_mm settings !!! X_AXIS) ;;
  printPgmString (" (x, step/mm)" ++ CRLF ++ "$1=") ;; printFloat (steps_per_mm settings !!! Y_AXIS) ;;
  printPgmString (" (y, step/mm)" ++ CRLF ++ "$2=") ;; printFloat (steps_per_mm settings !!! Z_AXIS) ;;
  printPgmString (" (z, step/mm)" ++ CRLF ++ "$3=") ;; printFloat (max_rate settings !!! X_AXIS) ;;
  printPgmString (" (x max rate, mm/min)" ++ CRLF ++ "$4=") ;; printFloat (max_rate settings !!! Y_AXIS) ;;
  printPgmString (" (y max rate, mm/min)" ++ CRLF ++ "$5=") ;; printFloat (max_rate settings !!! Z_AXIS) ;;
  printPgmString (" (z max rate, mm/min)" ++ CRLF ++ "$6=") ;;
  printFloat (f_div (acceleration settings !!! X_AXIS) (f_of_int (60 * 60))) ;;
  printPgmString (" (x accel, mm/sec^2)" ++ CRLF ++ "$7=") ;;
  printFloat (f_div (acceleration settings !!! Y_AXIS) (f_of_int (60 * 60))) ;;
  printPgmString (" (y accel, mm/sec^2)" ++ CRLF ++ "$8=") ;;
  printFloat (f_div (acceleration settings !!! Z_AXIS) (f_of_int (60 * 60))) ;;
  printPgmString (" (z accel, mm/sec^2)" ++ CRLF ++ "$9=") ;;
  printFloat (f_neg (max_travel settings !!! X_AXIS)) ;;
  printPgmString (" (x max travel, mm)" ++ CRLF ++ "$10=") ;;
  printFloat (f_neg (max_travel settings !!! Y_AXIS)) ;;
  printPgmString (" (y max travel, mm)" ++ CRLF ++ "$11=") ;;
  printFloat (f_neg (max_travel settings !!! Z_AXIS)) ;;
  printPgmString (" (z max travel, mm)" ++ CRLF ++ "$12=") ;;
  print_unsigned_base10 (pulse_microseconds settings) ;;
  printPgmString (" (step pulse, usec)" ++ CRLF ++ "$13=") ;;
  print_unsigned_base10 (step_invert_mask settings) ;;
  printPgmString " (step port invert mask:" ;;
  print_base2 (step_invert_mask settings) bits_step_invert_mask ;;
  printPgmString (")" ++ CRLF ++ "$14=") ;;
  print_unsigned_base10 (dir_invert_mask settings) ;;
  printPgmString " (dir port invert mask:" ;;
  print_base2 (dir_invert_mask settings) bits_dir_invert_mask ;;
  printPgmString (")" ++ CRLF ++ "$15=") ;;
  print_unsigned_base10 (stepper_idle_lock_time settings) ;;
  printPgmString (" (step idle delay, msec)" ++ CRLF ++ "$16=") ;;
  printFloat (junction_deviation settings) ;;
  printPgmString (" (junction deviation, mm)" ++ CRLF ++ "$17=") ;;
  printFloat (arc_tolerance settings) ;;
  printPgmString (" (arc tolerance, mm)" ++ CRLF ++ "$18=") ;;
  print_unsigned_base10 (decimal_places settings) ;;
  printPgmString (" (n-decimals, int)" ++ CRLF ++ "$19=") ;;
  print_unsigned_base10 (Z.b2z (bit_istrue (flags settings) BITFLAG_REPORT_INCHES)) ;;
  printPgmString (" (report inches, bool)" ++ CRLF ++ "$20=") ;;
  print_unsigned_base10 (Z.b2z (bit_istrue (flags settings) BITFLAG_AUTO_START)) ;;
  printPgmString (" (auto start, bool)" ++ CRLF ++ "$21=") ;;
  print_unsigned_base10 (Z.b2z (bit_istrue (flags settings) BITFLAG_INVERT_ST_ENABLE)) ;;
  printPgmString (" (invert step enable, bool)" ++ CRLF ++ "$22=") ;;
  print_unsigned_base10 (Z.b2z (bit_istrue (flags settings) BITFLAG_INVERT_LIMIT_PINS)) ;;
  printPgmString (" (invert limit pins, bool)" ++ CRLF ++ "$23=") ;;
  print_unsigned_base10 (Z.b2z (bit_istrue (flags settings) BITFLAG_SOFT_LIMIT_ENABLE)) ;;
  printPgmString (" (soft limits, bool)" ++ CRLF ++ "$24=") ;;
  print_unsigned_base10 (Z.b2z (bit_istrue (flags settings) BITFLAG_HARD_LIMIT_ENABLE)) ;;
  printPgmString (" (hard limits, bool)" ++ CRLF ++ "$25=") ;;
  print_unsigned_base10 (Z.b2z (bit_istrue (flags settings) BITFLAG_HOMING_ENABLE)) ;;
  printPgmString (" (homing cycle, bool)" ++ CRLF ++ "$26=") ;;
  print_unsigned_base10 (homing_dir_mask settings) ;;
  printPgmString " (homing dir invert mask:" ;;
  print_base2 (homing_dir_mask settings) bits_homing_dir_mask ;;
  printPgmString (")" ++ CRLF ++ "$27=") ;; printFloat (homing_feed_rate settings) ;;
  printPgmString (" (homing feed, mm/min)" ++ CRLF ++ "$28=") ;; printFloat (homing_seek_rate settings) ;;
  printPgmString (" (homing seek, mm/min)" ++ CRLF ++ "$29=") ;;
  print_unsigned_base10 (homing_debounce_delay settings) ;;
  printPgmString (" (homing debounce, msec)" ++ CRLF ++ "$30=") ;; printFloat (homing_pulloff settings) ;;
  printPgmString (" (homing pull-off, mm)" ++ CRLF).

(** A local [float a[N_AXIS]] before anything is stored in it. *)
Definition uninitialised : list F := replicate N_AXIS inhabitant.

(** [i < (N_AXIS-1)], in [int] arithmetic. *)
Definition before_last_axis (i : nat) : bool := Z.of_nat i <? Z.of_nat N_AXIS - 1.

Definition report_probe_parameters : io F unit :=
  let print_position := uninitialised in
  printPgmString "[Probe:" ;;
  for_loop (fun i print_position =>
      let print_position :=
        <[i := f_div (f_of_int (probe_position sys !!! i)) (steps_per_mm settings !!! i)]> print_position in
      let print_position :=
        if bit_istrue (flags settings) BITFLAG_REPORT_INCHES
        then <[i := f_mul (print_position !!! i) INCH_PER_MM]> print_position
        else print_position in
      printFloat (print_position !!! i) ;;
      (if before_last_axis i then printPgmString "," else ret tt) ;;
      ret print_position)
    0 N_AXIS print_position ;;
  printPgmString ("]" ++ CRLF).

(** The axis loop shared in shape by the coordinate lines and the G92 line of
    [report_ngc_parameters]. *)
Definition print_offsets (data : list F) : io F unit :=
  for_loop (fun i (_ : unit) =>
      (if bit_istrue (flags settings) BITFLAG_REPORT_INCHES
       then printFloat (f_mul (data !!! i) INCH_PER_MM)
       else printFloat (data !!! i)) ;;
      (if before_last_axis i then printPgmString ","
       else printPgmString ("]" ++ CRLF)))
    0 N_AXIS tt.

(** The body of the slot loop of [report_ngc_parameters] for the slots
    [coord_select], ..., [coord_select + n - 1]; the result is [false] when
    the function has returned from inside the loop. *)
Fixpoint report_ngc_slots (coord_select n : nat) : io F bool :=
  match n with
  | O => ret true
  | S n' =>
      read <- settings_read_coord_data coord_select ;;
      match read with
      | None =>
          report_status_message STATUS_SETTING_READ_FAIL ;;
          ret false
      | Some coord_data =>
          printPgmString "[G" ;;
          switch (Z.of_nat coord_select)
            [ (6, printPgmString "28");
              (7, printPgmString "30") ]
            (print_unsigned_base10 (Z.of_nat coord_select + 54)) ;;
          printPgmString ":" ;;
          print_offsets coord_data ;;
          report_ngc_slots (S coord_select) n'
      end
  end.

Definition report_ngc_parameters : io F unit :=
  completed <- report_ngc_slots 0 (S SETTING_INDEX_NCOORD) ;;
  if completed : bool then
    printPgmString "[G92:" ;;
    print_offsets (coord_offset gc_state) ;;
    report_probe_parameters
  else ret tt.

Definition report_realtime_status : io F unit :=
  let current_position := position sys in
  let print_position := uninitialised in
  switch (state sys)
    [ (STATE_IDLE, printPgmString "<Idle");
      (STATE_QUEUED, printPgmString "<Queue");
      (STATE_CYCLE, printPgmString "<Run");
      (STATE_HOLD, printPgmString "<Hold");
      (STATE_HOMING, printPgmString "<Home");
      (STATE_ALARM, printPgmString "<Alarm");
      (STATE_CHECK_MODE, printPgmString "<Check") ]
    (ret tt) ;;
  printPgmString ",MPos:" ;;
  print_position <-
    for_loop (fun i print_position =>
        let print_position :=
          <[i := f_div (f_of_int (current_position !!! i)) (steps_per_mm settings !!! i)]> print_position in
        let print_position :=
          if bit_istrue (flags settings) BITFLAG_REPORT_INCHES
          then <[i := f_mul (print_position !!! i) INCH_PER_MM]> print_position
          else print_position in
        printFloat (print_position !!! i) ;;
        printPgmString "," ;;
        ret print_position)
      0 N_AXIS print_position ;;
  printPgmString "WPos:" ;;
  for_loop (fun i print_position =>
      let print_position :=
        if bit_istrue (flags settings) BITFLAG_REPORT_INCHES
        then <[i := f_sub (print_position !!! i)
                      (f_mul (f_add (coord_system gc_state !!! i) (coord_offset gc_state !!! i))
                             INCH_PER_MM)]> print_position
        else <[i := f_sub (print_position !!! i)
                      (f_add (coord_system gc_state !!! i) (coord_offset gc_state !!! i))]> print_position in
      printFloat (print_position !!! i) ;;
      (if before_last_axis i then printPgmString "," else ret tt) ;;
      ret print_position)
    0 N_AXIS print_position ;;
  (if USE_LINE_NUMBERS then
     printPgmString ",Ln:" ;;
     let ln := match plan_get_current_block with
               | Some pb => line_number pb
               | None => 0
               end in
     printInteger ln
   else ret tt) ;;
  printPgmString (">" ++ CRLF).

End Report.

(** ** report.c, continued: feedback messages, parser modes, startup lines *)

(** report.h: the feedback message codes. *)
Class report_h_feedback := {
  MESSAGE_CRITICAL_EVENT : Z;
  MESSAGE_ALARM_LOCK : Z;
  MESSAGE_ALARM_UNLOCK : Z;
  MESSAGE_ENABLED : Z;
  MESSAGE_DISABLED : Z
}.

(** gcode.h, spindle_control.h and coolant_control.h: the values of the
    modal groups that [report_gcode_modes] tells apart. *)
Class gcode_h := {
  MOTION_MODE_SEEK : Z;
  MOTION_MODE_LINEAR : Z;
  MOTION_MODE_CW_ARC : Z;
  MOTION_MODE_CCW_ARC : Z;
  MOTION_MODE_NONE : Z;
  PLANE_SELECT_XY : Z;
  PLANE_SELECT_ZX : Z;
  PLANE_SELECT_YZ : Z;
  UNITS_MODE_MM : Z;
  DISTANCE_MODE_ABSOLUTE : Z;
  FEED_RATE_MODE_INVERSE_TIME : Z;
  PROGRAM_FLOW_RUNNING : Z;
  PROGRAM_FLOW_PAUSED : Z;
  PROGRAM_FLOW_COMPLETED : Z;
  SPINDLE_ENABLE_CW : Z;
  SPINDLE_ENABLE_CCW : Z;
  SPINDLE_DISABLE : Z;
  COOLANT_DISABLE : Z;
  COOLANT_FLOOD_ENABLE : Z;
  COOLANT_MIST_ENABLE : Z
}.

(** config.h: whether [ENABLE_M7] is defined. *)
Class config_h_coolant := {
  ENABLE_M7 : bool
}.

(** [gc_state.modal] (gcode.h): one selection per modal group. *)
Module Modal.

Record t := {
  motion : Z;
  coord_select : Z;
  plane_select : Z;
  units : Z;
  distance : Z;
  feed_rate : Z;
  program_flow : Z;
  spindle : Z;
  coolant : Z
}.

End Modal.

(** [gc_state] (gcode.h): the fields [report_gcode_modes] reads. *)
Record parser_modes_t (F : Type) := {
  modal : Modal.t;
  tool : Z;
  feed_rate : F
}.

Arguments modal {F} _.
Arguments tool {F} _.
Arguments feed_rate {F} _.

(** [printString(s)] sends the characters of a NUL-terminated string held
    in RAM, [printPgmString] those of one held in program memory; what goes
    out is the same, and both are recorded as the string sent.  The
    argument here is the content of the C string, up to its NUL. *)
Definition printString {F} (s : string) : io F unit := emit (PgmString s).

Section ReportModes.

Context {F : Type} `{FloatArith F}.
Context `{report_h_feedback} `{gcode_h} `{config_h_coolant}.

(** The global parser state. *)
Variable gc_state : parser_modes_t F.

Definition report_feedback_message (message_code : Z) : io F unit :=
  let message_code := to_uint8 message_code in
  printPgmString "[" ;;
  switch message_code
    [ (MESSAGE_CRITICAL_EVENT, printPgmString "Reset to continue");
      (MESSAGE_ALARM_LOCK, printPgmString "'$H'|'$X' to unlock");
      (MESSAGE_ALARM_UNLOCK, printPgmString "Caution: Unlocked");
      (MESSAGE_ENABLED, printPgmString "Enabled");
      (MESSAGE_DISABLED, printPgmString "Disabled") ]
    (ret tt) ;;
  printPgmString ("]" ++ CRLF).

Definition report_gcode_modes : io F unit :=
  switch (Modal.motion (modal gc_state))
    [ (MOTION_MODE_SEEK, printPgmString "[G0");
      (MOTION_MODE_LINEAR, printPgmString "[G1");
      (MOTION_MODE_CW_ARC, printPgmString "[G2");
      (MOTION_MODE_CCW_ARC, printPgmString "[G3");
      (MOTION_MODE_NONE, printPgmString "[G80") ]
    (ret tt) ;;
  printPgmString " G" ;;
  print_unsigned_base10 (Modal.coord_select (modal gc_state) + 54) ;;
  switch (Modal.plane_select (modal gc_state))
    [ (PLANE_SELECT_XY, printPgmString " G17");
      (PLANE_SELECT_ZX, printPgmString " G18");
      (PLANE_SELECT_YZ, printPgmString " G19") ]
    (ret tt) ;;
  (if Modal.units (modal gc_state) =? UNITS_MODE_MM
   then printPgmString " G21" else printPgmString " G20") ;;
  (if Modal.distance (modal gc_state) =? DISTANCE_MODE_ABSOLUTE
   then printPgmString " G90" else printPgmString " G91") ;;
  (if Modal.feed_rate (modal gc_state) =? FEED_RATE_MODE_INVERSE_TIME
   then printPgmString " G93" else printPgmString " G94") ;;
  switch (Modal.program_flow (modal gc_state))
    [ (PROGRAM_FLOW_RUNNING, printPgmString " M0");
      (PROGRAM_FLOW_PAUSED, printPgmString " M1");
      (PROGRAM_FLOW_COMPLETED, printPgmString " M2") ]
    (ret tt) ;;
  switch (Modal.spindle (modal gc_state))
    [ (SPINDLE_ENABLE_CW, printPgmString " M3");
      (SPINDLE_ENABLE_CCW, printPgmString " M4");
      (SPINDLE_DISABLE, printPgmString " M5") ]
    (ret tt) ;;
  switch (Modal.coolant (modal gc_state))
    ([ (COOLANT_DISABLE, printPgmString " M9");
       (COOLANT_FLOOD_ENABLE, printPgmString " M8") ]
     ++ (if ENABLE_M7 then [ (COOLANT_MIST_ENABLE, printPgmString " M7") ] else []))
    (ret tt) ;;
  printPgmString " T" ;;
  print_unsigned_base10 (tool gc_state) ;;
  printPgmString " F" ;;
  printFloat (feed_rate gc_state) ;;
  printPgmString ("]" ++ CRLF).

Definition report_startup_line (n : Z) (line : string) : io F unit :=
  let n := to_uint8 n in
  printPgmString "$N" ;; print_unsigned_base10 n ;;
  printPgmString "=" ;; printString line ;;
  printPgmString CRLF.

End ReportModes.

(** ** A build for the examples

    Three axes, eight coordinate slots (0 to 7), line numbers off, 8-bit
    masks, and distinct codes within the range of their C types. *)

Module Example.

#[export] Instance report_h_example : report_h := {|
  STATUS_EXPECTED_COMMAND_LETTER := 1;
  STATUS_BAD_NUMBER_FORMAT := 2;
  STATUS_INVALID_STATEMENT := 3;
  STATUS_NEGATIVE_VALUE := 4;
  STATUS_SETTING_DISABLED := 5;
  STATUS_SETTING_STEP_PULSE_MIN := 6;
  STATUS_SETTING_READ_FAIL := 7;
  STATUS_IDLE_ERROR := 8;
  STATUS_ALARM_LOCK := 9;
  STATUS_SOFT_LIMIT_ERROR := 10;
  STATUS_OVERFLOW := 11;
  STATUS_GCODE_MODAL_GROUP_VIOLATION := 21;
  STATUS_GCODE_UNSUPPORTED_COMMAND := 20;
  STATUS_GCODE_UNDEFINED_FEED_RATE := 22;
  ALARM_LIMIT_ERROR := -1;
  ALARM_ABORT_CYCLE := -2;
  ALARM_PROBE_FAIL := -3
|}.

#[export] Instance system_h_example : system_h := {|
  STATE_IDLE := 0;
  STATE_ALARM := 1;
  STATE_CHECK_MODE := 2;
  STATE_HOMING := 4;
  STATE_QUEUED := 8;
  STATE_CYCLE := 16;
  STATE_HOLD := 32
|}.

#[export] Instance settings_h_example : settings_h := {|
  BITFLAG_REPORT_INCHES := 1;
  BITFLAG_AUTO_START := 2;
  BITFLAG_INVERT_ST_ENABLE := 4;
  BITFLAG_HARD_LIMIT_ENABLE := 8;
  BITFLAG_HOMING_ENABLE := 16;
  BITFLAG_SOFT_LIMIT_ENABLE := 32;
  BITFLAG_INVERT_LIMIT_PINS := 64;
  SETTING_INDEX_NCOORD := 7;
  bits_step_invert_mask := 8;
  bits_dir_invert_mask := 8;
  bits_homing_dir_mask := 8
|}.

(** [INCH_PER_MM] is 0.0393701, here the binary32 number nearest to it. *)
#[export] Instance nuts_bolts_h_example : nuts_bolts_h spec_float := {|
  N_AXIS := 3;
  X_AXIS := 0;
  Y_AXIS := 1;
  Z_AXIS := 2;
  INCH_PER_MM := f_div (f_of_int 393701) (f_of_int 10000000)
|}.

#[export] Instance config_h_example : config_h := {|
  USE_LINE_NUMBERS := false
|}.

Definition fl (n : Z) : spec_float := f_of_int n.

(** Settings with [steps_per_mm = [250,250,200]], millimetre reports and
    three decimals. *)
Definition settings : settings_t spec_float := {|
  steps_per_mm := [fl 250; fl 250; fl 200];
  max_rate := [fl 500; fl 500; fl 500];
  acceleration := [fl 36000; fl 36000; fl 36000];
  max_travel := [fl (-200); fl (-200); fl (-200)];
  pulse_microseconds := 10;
  step_invert_mask := 0;
  dir_invert_mask := 192;
  stepper_idle_lock_time := 25;
  junction_deviation := f_div (fl 2) (fl 100);
  arc_tolerance := f_div (fl 5) (fl 1000);
  decimal_places := 3;
  flags := 2;
  homing_dir_mask := 0;
  homing_feed_rate := fl 25;
  homing_seek_rate := fl 250;
  homing_debounce_delay := 100;
  homing_pulloff := fl 1
|}.

Definition sys_run : system_t := {|
  state := STATE_CYCLE;
  position := [2500; 2500; 2000];
  probe_position := [0; 0; 0]
|}.

Definition gc_zero : parser_state_t spec_float := {|
  coord_system := [fl 0; fl 0; fl 0];
  coord_offset := [fl 0; fl 0; fl 0]
|}.


(** A coordinate store whose slot 2 cannot be read. *)
Definition store_bad_2 (slot : nat) : option (list spec_float) :=
  if (slot =? 2)%nat then None else Some [fl 1; fl 2; fl 3].

Definition store_ok (slot : nat) : option (list spec_float) :=
  Some [fl 1; fl 2; fl 3].

End Example.

(** The example build, continued: feedback codes, modal values, no M7. *)
Module ExampleModes.

#[export] Instance report_h_feedback_example : report_h_feedback := {|
  MESSAGE_CRITICAL_EVENT := 1;
  MESSAGE_ALARM_LOCK := 2;
  MESSAGE_ALARM_UNLOCK := 3;
  MESSAGE_ENABLED := 4;
  MESSAGE_DISABLED := 5
|}.

#[export] Instance gcode_h_example : gcode_h := {|
  MOTION_MODE_SEEK := 0;
  MOTION_MODE_LINEAR := 1;
  MOTION_MODE_CW_ARC := 2;
  MOTION_MODE_CCW_ARC := 3;
  MOTION_MODE_NONE := 80;
  PLANE_SELECT_XY := 0;
  PLANE_SELECT_ZX := 1;
  PLANE_SELECT_YZ := 2;
  UNITS_MODE_MM := 0;
  DISTANCE_MODE_ABSOLUTE := 0;
  FEED_RATE_MODE_INVERSE_TIME := 1;
  PROGRAM_FLOW_RUNNING := 0;
  PROGRAM_FLOW_PAUSED := 1;
  PROGRAM_FLOW_COMPLETED := 2;
  SPINDLE_DISABLE := 0;
  SPINDLE_ENABLE_CW := 1;
  SPINDLE_ENABLE_CCW := 2;
  COOLANT_DISABLE := 0;
  COOLANT_MIST_ENABLE := 1;
  COOLANT_FLOOD_ENABLE := 2
|}.

#[export] Instance config_h_coolant_example : config_h_coolant := {|
  ENABLE_M7 := false
|}.

(** Linear motion in G55, XY plane, millimetres, absolute, units per
    minute, program running, spindle clockwise, flood coolant, tool 3. *)
Definition modes : parser_modes_t spec_float := {|
  modal := {| Modal.motion := 1; Modal.coord_select := 1; Modal.plane_select := 0;
              Modal.units := 0; Modal.distance := 0; Modal.feed_rate := 0;
              Modal.program_flow := 0; Modal.spindle := 1; Modal.coolant := 2 |};
  tool := 3;
  feed_rate := f_of_int 500
|}.

End ExampleModes.


(** ** Vocabulary of the statements *)

(** The phrase report.c prints for each status code it knows. *)
Definition status_phrases `{report_h} : list (Z * string) :=
  [ (STATUS_EXPECTED_COMMAND_LETTER, "Expected command letter"%string);
    (STATUS_BAD_NUMBER_FORMAT, "Bad number format"%string);
    (STATUS_INVALID_STATEMENT, "Invalid statement"%string);
    (STATUS_NEGATIVE_VALUE, "Value < 0"%string);
    (STATUS_SETTING_DISABLED, "Setting disabled"%string);
    (STATUS_SETTING_STEP_PULSE_MIN, "Value < 3 usec"%string);
    (STATUS_SETTING_READ_FAIL, "EEPROM read fail. Using defaults"%string);
    (STATUS_IDLE_ERROR, "Not idle"%string);
    (STATUS_ALARM_LOCK, "Alarm lock"%string);
    (STATUS_SOFT_LIMIT_ERROR, "Homing not enabled"%string);
    (STATUS_OVERFLOW, "Line overflow"%string);
    (STATUS_GCODE_MODAL_GROUP_VIOLATION, "Modal group violation"%string);
    (STATUS_GCODE_UNSUPPORTED_COMMAND, "Unsupported command"%string);
    (STATUS_GCODE_UNDEFINED_FEED_RATE, "Undefined feed rate"%string) ].

(** The known status codes.  C requires the case labels of one [switch] to
    be pairwise distinct. *)
Definition status_codes `{report_h} : list Z := map fst status_phrases.

(** The phrase for each of the three alarm codes. *)
Definition alarm_phrases `{report_h} : list (Z * string) :=
  [ (ALARM_LIMIT_ERROR, "Hard/soft limit"%string);
    (ALARM_ABORT_CYCLE, "Abort during cycle"%string);
    (ALARM_PROBE_FAIL, "Probe fail"%string) ].

Definition alarm_codes `{report_h} : list Z := map fst alarm_phrases.

(** The token for each of the seven machine states. *)
Definition state_tokens `{system_h} : list (Z * string) :=
  [ (STATE_IDLE, "Idle"%string);
    (STATE_QUEUED, "Queue"%string);
    (STATE_CYCLE, "Run"%string);
    (STATE_HOLD, "Hold"%string);
    (STATE_HOMING, "Home"%string);
    (STATE_ALARM, "Alarm"%string);
    (STATE_CHECK_MODE, "Check"%string) ].

Definition state_codes `{system_h} : list Z := map fst state_tokens.

(** Decimal notation as the standard library writes it. *)
Definition decimal_notation (n : Z) : string :=
  NilZero.string_of_uint (N.to_uint (Z.to_N n)).

(** The calls that show a number: everything but the fixed strings. *)
Definition is_value {F} (c : call F) : bool :=
  match c with
  | PgmString _ => false
  | _ => true
  end.

Definition values_shown {F} (t : list (call F)) : list (call F) := List.filter is_value t.

(** [ends_with suffix s]: the string [s] ends with [suffix]. *)
Definition ends_with (suffix s : string) : bool :=
  (String.length suffix <=? String.length s)%nat
  && String.eqb (substring (String.length s - String.length suffix) (String.length suffix) s) suffix.

(** The call that follows the first fixed string ending with [label]. *)
Fixpoint shown_after {F} (label : string) (t : list (call F)) : option (call F) :=
  match t with
  | PgmString s :: t' => if ends_with label s then head t' else shown_after label t'
  | _ :: t' => shown_after label t'
  | [] => None
  end.

(** What the settings dump shows for setting [$index]: the call that
    follows the text "$index=". *)
Definition setting_shown {F} (index : nat) (t : list (call F)) : option (call F) :=
  shown_after ("$" ++ decimal_notation (Z.of_nat index) ++ "=") t.


(** A list of values printed with a comma after each of them. *)
Definition comma_after_each {F} (vs : list F) : list (call F) :=
  flat_map (fun v => [Float v; PgmString ","]) vs.

(** A list of values printed with commas between them only. *)
Fixpoint comma_between {F} (vs : list F) : list (call F) :=
  match vs with
  | [] => []
  | [v] => [Float v]
  | v :: vs' => Float v :: PgmString "," :: comma_between vs'
  end.

(** The values printed at the head of [t], commas skipped, up to the first
    call that is neither a value nor a comma. *)
Fixpoint values_run {F} (t : list (call F)) : list F :=
  match t with
  | Float v :: t' => v :: values_run t'
  | PgmString s :: t' => if String.eqb s "," then values_run t' else []
  | _ => []
  end.

(** The values printed right after the fixed string [label]. *)
Fixpoint values_after {F} (label : string) (t : list (call F)) : list F :=
  match t with
  | PgmString s :: t' => if String.eqb s label then values_run t' else values_after label t'
  | _ :: t' => values_after label t'
  | [] => []
  end.

Section Positions.

Context {F : Type} `{FloatArith F} `{system_h} `{settings_h} `{nuts_bolts_h F} `{config_h}.

(** The position of axis [i] in millimetres, or in inches when the
    report-inches flag is set. *)
Definition machine_position (settings : settings_t F) (sys : system_t) (i : nat) : F :=
  let mm := f_div (f_of_int (position sys !!! i)) (steps_per_mm settings !!! i) in
  if bit_istrue (flags settings) BITFLAG_REPORT_INCHES then f_mul mm INCH_PER_MM else mm.

(** The sum of the coordinate-system offset and the G92 offset of axis [i],
    with the same inch factor. *)
Definition work_offset (settings : settings_t F) (gc_state : parser_state_t F) (i : nat) : F :=
  let mm := f_add (coord_system gc_state !!! i) (coord_offset gc_state !!! i) in
  if bit_istrue (flags settings) BITFLAG_REPORT_INCHES then f_mul mm INCH_PER_MM else mm.

Definition work_position (settings : settings_t F) (sys : system_t)
    (gc_state : parser_state_t F) (i : nat) : F :=
  f_sub (machine_position settings sys i) (work_offset settings gc_state i).

(** The token of the current machine state, if it is one of the seven. *)
Definition state_token (sys : system_t) : option string :=
  switch (state sys) (map (fun lt : Z * string => (fst lt, Some (snd lt))) state_tokens) None.

Definition state_token_calls (sys : system_t) : list (call F) :=
  match state_token sys with
  | Some token => [PgmString ("<" ++ token)]
  | None => []
  end.

(** The end of the status line: the line number when the build has it, and
    the closing delimiter. *)
Definition status_line_end (block : option plan_block_t) : list (call F) :=
  (if USE_LINE_NUMBERS
   then [PgmString ",Ln:";
         Integer (match block with Some pb => line_number pb | None => 0 end)]
   else [])
  ++ [PgmString (">" ++ CRLF)].

End Positions.

(** [has_char c s]: the character [c] occurs in [s]. *)
Fixpoint has_char (c : ascii) (s : string) : bool :=
  match s with
  | EmptyString => false
  | String x s' => Ascii.eqb x c || has_char c s'
  end.

(** No fixed string among the calls contains the character [c]. *)
Definition no_fixed_char {F} (c : ascii) (t : list (call F)) : Prop :=
  List.Forall (fun k => match k with PgmString s => has_char c s = false | _ => True end) t.

(** The attempts to read coordinate data. *)
Definition is_read {F} (c : call F) : bool :=
  match c with
  | ReadCoordData _ => true
  | _ => false
  end.

Definition read_attempts {F} (t : list (call F)) : list (call F) := List.filter is_read t.

(** The number of times the fixed string [s] is printed. *)
Definition is_fixed {F} (s : string) (c : call F) : bool :=
  match c with
  | PgmString s' => String.eqb s' s
  | _ => false
  end.

Definition count_fixed {F} (s : string) (t : list (call F)) : nat :=
  length (List.filter (is_fixed s) t).

(** The calls that mark the frames of the coordinate dump: a read attempt,
    the start of a coordinate line, of an error frame, of the G92 line and
    of the probe frame. *)
Definition is_mark {F} (c : call F) : bool :=
  is_read c || is_fixed "[G" c || is_fixed "error: " c
  || is_fixed "[G92:" c || is_fixed "[Probe:" c.

Section CoordinateLines.

Context {F : Type} `{FloatArith F} `{settings_h} `{nuts_bolts_h F}.

(** One coordinate line together with the read before it: "[G", the name
    of the slot, ":" and the offsets of the slot. *)
Definition coord_line_calls (settings : settings_t F) (slot : nat) (coord_data : list F) :
    list (call F) :=
  [ReadCoordData (Z.of_nat slot); PgmString "[G"]
  ++ (if (slot =? 6)%nat then [PgmString "28"]
      else if (slot =? 7)%nat then [PgmString "30"]
      else [UnsignedBase10 (Z.of_nat slot + 54)])
  ++ [PgmString ":"]
  ++ calls (print_offsets settings coord_data).

(** The line of a slot whose data can be read. *)
Definition slot_calls (settings : settings_t F) (store : nat -> option (list F)) (slot : nat) :
    list (call F) :=
  match store slot with
  | Some coord_data => coord_line_calls settings slot coord_data
  | None => []
  end.

End CoordinateLines.

(** The number a buffer of digits stands for, least significant digit
    first. *)
Fixpoint digits_value (buf : list ascii) : Z :=
  match buf with
  | [] => 0
  | c :: buf' => (Z.of_nat (nat_of_ascii c) - 48) + 10 * digits_value buf'
  end.

(** The phrase for each of the five feedback codes. *)
Definition feedback_phrases `{report_h_feedback} : list (Z * string) :=
  [ (MESSAGE_CRITICAL_EVENT, "Reset to continue"%string);
    (MESSAGE_ALARM_LOCK, "'$H'|'$X' to unlock"%string);
    (MESSAGE_ALARM_UNLOCK, "Caution: Unlocked"%string);
    (MESSAGE_ENABLED, "Enabled"%string);
    (MESSAGE_DISABLED, "Disabled"%string) ].

Definition feedback_codes `{report_h_feedback} : list Z := map fst feedback_phrases.

(** The calls that print a float, and the calls that wait. *)
Definition is_float {F} (c : call F) : bool :=
  match c with
  | Float _ => true
  | _ => false
  end.

Definition is_delay {F} (c : call F) : bool :=
  match c with
  | DelayMs _ => true
  | _ => false
  end.

Section ProbeValues.

Context {F : Type} `{FloatArith F} `{settings_h} `{nuts_bolts_h F}.

(** The probe position of axis [i] in millimetres, or in inches when the
    report-inches flag is set. *)
Definition probe_value (settings : settings_t F) (sys : system_t) (i : nat) : F :=
  let mm := f_div (f_of_int (probe_position sys !!! i)) (steps_per_mm settings !!! i) in
  if bit_istrue (flags settings) BITFLAG_REPORT_INCHES then f_mul mm INCH_PER_MM else mm.

(** The offset [data[i]] as a coordinate line shows it. *)
Definition offset_value (settings : settings_t F) (data : list F) (i : nat) : F :=
  if bit_istrue (flags settings) BITFLAG_REPORT_INCHES
  then f_mul (data !!! i) INCH_PER_MM
  else data !!! i.

End ProbeValues.

(** The g-code word for each value of the modal groups that
    [report_gcode_modes] looks up. *)
Definition motion_words `{gcode_h} : list (Z * string) :=
  [ (MOTION_MODE_SEEK, "G0"%string);
    (MOTION_MODE_LINEAR, "G1"%string);
    (MOTION_MODE_CW_ARC, "G2"%string);
    (MOTION_MODE_CCW_ARC, "G3"%string);
    (MOTION_MODE_NONE, "G80"%string) ].

Definition plane_words `{gcode_h} : list (Z * string) :=
  [ (PLANE_SELECT_XY, "G17"%string);
    (PLANE_SELECT_ZX, "G18"%string);
    (PLANE_SELECT_YZ, "G19"%string) ].

Definition program_flow_words `{gcode_h} : list (Z * string) :=
  [ (PROGRAM_FLOW_RUNNING, "M0"%string);
    (PROGRAM_FLOW_PAUSED, "M1"%string);
    (PROGRAM_FLOW_COMPLETED, "M2"%string) ].

Definition spindle_words `{gcode_h} : list (Z * string) :=
  [ (SPINDLE_ENABLE_CW, "M3"%string);
    (SPINDLE_ENABLE_CCW, "M4"%string);
    (SPINDLE_DISABLE, "M5"%string) ].

Definition coolant_words `{gcode_h} `{config_h_coolant} : list (Z * string) :=
  [ (COOLANT_DISABLE, "M9"%string);
    (COOLANT_FLOOD_ENABLE, "M8"%string) ]
  ++ (if ENABLE_M7 then [ (COOLANT_MIST_ENABLE, "M7"%string) ] else []).

(** The words of the three two-way modal groups. *)
Definition units_word `{gcode_h} (m : Modal.t) : string :=
  if Modal.units m =? UNITS_MODE_MM then "G21" else "G20".

Definition distance_word `{gcode_h} (m : Modal.t) : string :=
  if Modal.distance m =? DISTANCE_MODE_ABSOLUTE then "G90" else "G91".

Definition feed_rate_word `{gcode_h} (m : Modal.t) : string :=
  if Modal.feed_rate m =? FEED_RATE_MODE_INVERSE_TIME then "G93" else "G94".

(** The number a decimal text stands for. *)
Definition text_value (s : string) : Z := digits_value (rev (list_ascii_of_string s)).

(** The fixed text of a sequence of calls, every number replaced by "#". *)
Definition layout {F} (t : list (call F)) : string :=
  fold_right (fun c rest =>
                match c with
                | PgmString s => (s ++ rest)%string
                | _ => String "#" rest
                end) EmptyString t.

(** The pieces of [s] between the occurrences of the character [sep]. *)
Fixpoint split_on (sep : ascii) (s : string) : list string :=
  match s with
  | EmptyString => [EmptyString]
  | String c s' =>
      match split_on sep s' with
      | piece :: pieces =>
          if Ascii.eqb c sep then EmptyString :: piece :: pieces
          else String c piece :: pieces
      | [] => []
      end
  end.

(** ** Laws of computations, switches and loops *)

Section Laws.

Context {F : Type}.

Lemma calls_bind {A B} (m : io F A) (k : A -> io F B) :
  calls (bind m k) = calls m ++ calls (k (result m)).
Proof.
  destruct m as [t a]. unfold bind, calls, result. simpl.
  destruct (k a). reflexivity.
Qed.

Lemma result_bind {A B} (m : io F A) (k : A -> io F B) :
  result (bind m k) = result (k (result m)).
Proof.
  destruct m as [t a]. unfold bind, result. simpl.
  destruct (k a). reflexivity.
Qed.

Lemma io_eta {A} (m : io F A) : m = (calls m, result m).
Proof. destruct m. reflexivity. Qed.

Lemma bind_pair {A B} (t : list (call F)) (a : A) (k : A -> io F B) :
  bind (t, a) k = (t ++ calls (k a), result (k a)).
Proof. unfold bind. destruct (k a). reflexivity. Qed.

Lemma switch_hit {A} (cases : list (Z * A)) (d : A) (label : Z) (k : A) :
  NoDup (map fst cases) -> In (label, k) cases -> switch label cases d = k.
Proof.
  induction cases as [|[l0 k0] cases IH]; simpl; intros Hnd Hin.
  - contradiction.
  - inversion Hnd as [|? ? Hnotin Hnd']; subst.
    destruct Hin as [Heq|Hin].
    + inversion Heq; subst. rewrite Z.eqb_refl. reflexivity.
    + destruct (Z.eqb_spec label l0) as [->|Hne].
      * exfalso. apply Hnotin. apply (in_map fst) in Hin. apply list_elem_of_In. exact Hin.
      * apply IH; assumption.
Qed.

Lemma switch_miss {A} (cases : list (Z * A)) (d : A) (x : Z) :
  ~ In x (map fst cases) -> switch x cases d = d.
Proof.
  induction cases as [|[l0 k0] cases IH]; simpl; intros Hnotin.
  - reflexivity.
  - destruct (Z.eqb_spec x l0) as [->|Hne].
    + exfalso. apply Hnotin. left. reflexivity.
    + apply IH. intros Hin. apply Hnotin. right. exact Hin.
Qed.

(** A switch runs one of its cases or its default. *)
Lemma switch_elim {A} (P : A -> Prop) (cases : list (Z * A)) (d : A) (x : Z) :
  P d -> List.Forall P (map snd cases) -> P (switch x cases d).
Proof.
  intros Hd. induction cases as [|[l0 k0] cases IH]; simpl; intros Hall.
  - exact Hd.
  - inversion Hall; subst. destruct (x =? l0); auto.
Qed.

Lemma for_loop_calls_Forall {St} (P : call F -> Prop) (body : nat -> St -> io F St) :
  (forall i s, List.Forall P (calls (body i s))) ->
  forall n from s, List.Forall P (calls (for_loop body from n s)).
Proof.
  intros Hbody. induction n as [|n IH]; intros from s; simpl.
  - constructor.
  - rewrite calls_bind. apply Forall_app. split; [apply Hbody | apply IH].
Qed.

End Laws.

(** Unfold one sequencing step under [calls]. *)
Ltac step_bind := rewrite calls_bind; cbv beta.

Lemma string_app_assoc (a b c : string) : ((a ++ b) ++ c = a ++ (b ++ c))%string.
Proof. induction a as [|x a IH]; simpl; [reflexivity | rewrite IH; reflexivity]. Qed.

Lemma string_app_nil_r (a : string) : (a ++ "")%string = a.
Proof. induction a as [|x a IH]; simpl; [reflexivity | rewrite IH; reflexivity]. Qed.

Lemma serial_text_app `{FloatArith F} (dp : Z) (t1 t2 : list (call F)) :
  serial_text dp (t1 ++ t2) = (serial_text dp t1 ++ serial_text dp t2)%string.
Proof.
  induction t1 as [|c t1 IH]; simpl.
  - reflexivity.
  - rewrite IH, string_app_assoc. reflexivity.
Qed.

Lemma serial_text_cons `{FloatArith F} (dp : Z) (c : call F) (t : list (call F)) :
  serial_text dp (c :: t) = (call_text dp c ++ serial_text dp t)%string.
Proof. reflexivity. Qed.

Lemma to_uint8_small (n : Z) : 0 <= n < 256 -> to_uint8 n = n.
Proof. intros Hn. unfold to_uint8. apply Z.mod_small. exact Hn. Qed.

Lemma to_int8_small (n : Z) : -128 <= n < 128 -> to_int8 n = n.
Proof. intros Hn. unfold to_int8. rewrite Z.mod_small; lia. Qed.

(** A property checked on each of the 256 values of a [uint8_t]. *)
Lemma uint8_cases (P : Z -> bool) :
  forallb P (map Z.of_nat (seq 0 256)) = true ->
  forall n, 0 <= n < 256 -> P n = true.
Proof.
  intros Hall n Hn. rewrite forallb_forall in Hall. apply Hall.
  apply in_map_iff. exists (Z.to_nat n). split; [lia|].
  apply in_seq. lia.
Qed.

(** ** The unsigned printer *)

Lemma print_unsigned_base10_uint8 (n : Z) :
  0 <= n < 256 -> print_unsigned_base10_text n = decimal_notation n.
Proof.
  intros Hn. apply String.eqb_eq.
  apply (uint8_cases (fun n => String.eqb (print_unsigned_base10_text n) (decimal_notation n))).
  - vm_compute. reflexivity.
  - exact Hn.
Qed.

(** The digit loop loses nothing as long as the number has no more digits
    than the buffer has places. *)
Lemma extract_digits_value (buf : nat) :
  forall n, 0 <= n < 10 ^ Z.of_nat buf -> digits_value (extract_digits buf n) = n.
Proof.
  induction buf as [|buf IH]; intros n Hn.
  - cbn in *. lia.
  - cbn [extract_digits]. destruct (Z.ltb_spec 0 n) as [Hpos|Hzero].
    + cbn [digits_value]. unfold digit_char.
      assert (Hdigit : 0 <= n mod 10 < 10) by (apply Z.mod_pos_bound; lia).
      rewrite nat_ascii_embedding by lia.
      rewrite Z2Nat.id by lia.
      rewrite IH.
      * pose proof (Z.div_mod n 10). lia.
      * rewrite Nat2Z.inj_succ, Z.pow_succ_r in Hn by lia.
        split; [apply Z.div_pos; lia|]. apply Z.div_lt_upper_bound; lia.
    + cbn. lia.
Qed.

(** The ten places of the buffer are enough for any 32-bit number. *)
Lemma extract_digits_uint32 (n : Z) :
  0 <= n < 2 ^ 32 -> digits_value (extract_digits 10 n) = n.
Proof.
  intros Hn. apply extract_digits_value.
  change (10 ^ Z.of_nat 10) with 10000000000. change (2 ^ 32) with 4294967296 in Hn. lia.
Qed.

(** C5, as the code has it.  [print_unsigned_base10] renders 0 as "0" and
    every value of its [uint8_t] parameter, 0 to 255, in decimal without
    leading zeros; an argument beyond that range is first converted to
    [uint8_t], so 4294967295 is printed as "255". *)
Theorem print_unsigned_base10_range :
  print_unsigned_base10_text 0 = "0"%string
  /\ (forall n, 0 <= n < 256 -> print_unsigned_base10_text n = decimal_notation n)
  /\ (forall n, print_unsigned_base10_text n = print_unsigned_base10_text (n mod 256))
  /\ print_unsigned_base10_text 4294967295 = "255"%string.
Proof.
  split; [reflexivity|]. split; [exact print_unsigned_base10_uint8|]. split.
  - intros n. unfold print_unsigned_base10_text, to_uint8.
    rewrite Z.mod_mod by lia. reflexivity.
  - vm_compute. reflexivity.
Qed.

(** C5 as stated fails: 4294967295 is not rendered as "4294967295". *)
Lemma print_unsigned_base10_max32_counterexample :
  print_unsigned_base10_text 4294967295 <> "4294967295"%string.
Proof. vm_compute. discriminate. Qed.

(** ** Acknowledgement and alarm frames *)

Section Frames.

Context {F : Type} `{FloatArith F} `{report_h}.

Lemma status_cases_phrases (code : Z) (phrase : string) :
  In (code, phrase) status_phrases ->
  In (code, printPgmString (F:=F) phrase)
     (map (fun lp : Z * string => (fst lp, printPgmString (F:=F) (snd lp))) status_phrases).
Proof.
  intros Hin.
  apply (in_map (fun lp : Z * string => (fst lp, printPgmString (F:=F) (snd lp)))) in Hin.
  exact Hin.
Qed.

Lemma report_status_message_known (dp code : Z) (phrase : string) :
  NoDup status_codes -> In (code, phrase) status_phrases -> 0 < code < 256 ->
  serial_text dp (calls (report_status_message (F:=F) code)) = ("error: " ++ phrase ++ CRLF)%string.
Proof.
  intros Hnd Hin Hcode. unfold report_status_message.
  rewrite to_uint8_small by lia.
  destruct (Z.eqb_spec code 0) as [?|_]; [lia|].
  rewrite !calls_bind.
  erewrite switch_hit; [| exact Hnd | apply status_cases_phrases in Hin; exact Hin].
  reflexivity.
Qed.

Lemma report_status_message_unknown (dp code : Z) :
  0 < code < 256 -> ~ In code status_codes ->
  serial_text dp (calls (report_status_message (F:=F) code)) =
    ("error: Invalid gcode ID:" ++ print_unsigned_base10_text code ++ CRLF)%string.
Proof.
  intros Hcode Hnotin. unfold report_status_message.
  rewrite to_uint8_small by lia.
  destruct (Z.eqb_spec code 0) as [?|_]; [lia|].
  rewrite !calls_bind.
  rewrite switch_miss by exact Hnotin.
  reflexivity.
Qed.

(** C1. [report_status_message(0)] emits exactly "ok\r\n"; a nonzero code of
    the known set emits "error: ", the fixed phrase of that code and
    "\r\n"; a nonzero code outside the known set emits
    "error: Invalid gcode ID:", the code in decimal and "\r\n"; so every
    nonzero code gives a line that ends with "\r\n".  Codes are the values
    of the [uint8_t] parameter, and the case labels of the switch are
    pairwise distinct. *)
Theorem report_status_message_frames (dp : Z) :
  NoDup status_codes ->
  serial_text dp (calls (report_status_message (F:=F) 0)) = ("ok" ++ CRLF)%string
  /\ (forall code phrase,
        In (code, phrase) status_phrases -> 0 < code < 256 ->
        serial_text dp (calls (report_status_message (F:=F) code)) =
          ("error: " ++ phrase ++ CRLF)%string)
  /\ (forall code,
        0 < code < 256 -> ~ In code status_codes ->
        serial_text dp (calls (report_status_message (F:=F) code)) =
          ("error: Invalid gcode ID:" ++ decimal_notation code ++ CRLF)%string)
  /\ (forall code,
        0 < code < 256 ->
        exists body,
          serial_text dp (calls (report_status_message (F:=F) code)) =
            ("error: " ++ body ++ CRLF)%string).
Proof.
  intros Hnd. split; [reflexivity|]. split; [|split].
  - intros code phrase Hin Hcode. apply report_status_message_known; assumption.
  - intros code Hcode Hnotin. rewrite <- print_unsigned_base10_uint8 by lia.
    apply report_status_message_unknown; assumption.
  - intros code Hcode.
    destruct (in_dec Z.eq_dec code status_codes) as [Hin|Hnotin].
    + apply in_map_iff in Hin. destruct Hin as [[c phrase] [Hc Hin]].
      simpl in Hc. subst c. exists phrase.
      apply report_status_message_known; assumption.
    + exists ("Invalid gcode ID:" ++ print_unsigned_base10_text code)%string.
      rewrite report_status_message_unknown by assumption.
      rewrite string_app_assoc. reflexivity.
Qed.

Lemma report_alarm_message_calls (alarm_code : Z) :
  calls (report_alarm_message (F:=F) alarm_code) =
    [PgmString "ALARM: "]
    ++ calls (switch (to_int8 alarm_code)
                [ (ALARM_LIMIT_ERROR, printPgmString (F:=F) "Hard/soft limit");
                  (ALARM_ABORT_CYCLE, printPgmString "Abort during cycle");
                  (ALARM_PROBE_FAIL, printPgmString "Probe fail") ]
                (ret tt))
    ++ [PgmString CRLF; DelayMs 500].
Proof. unfold report_alarm_message. rewrite !calls_bind. reflexivity. Qed.

(** C8. [report_alarm_message] always emits the prefix "ALARM: " and the
    terminator "\r\n"; between them comes the fixed phrase of the code for
    each of the three alarm codes, and nothing for any other code, which
    gives exactly "ALARM: \r\n".  Codes are the values of the [int8_t]
    parameter, and the case labels are pairwise distinct. *)
Theorem report_alarm_message_frames (dp : Z) :
  NoDup alarm_codes ->
  (forall code phrase,
     In (code, phrase) alarm_phrases -> -128 <= code < 128 ->
     serial_text dp (calls (report_alarm_message (F:=F) code)) =
       ("ALARM: " ++ phrase ++ CRLF)%string)
  /\ (forall code,
        -128 <= code < 128 -> ~ In code alarm_codes ->
        serial_text dp (calls (report_alarm_message (F:=F) code)) =
          ("ALARM: " ++ CRLF)%string)
  /\ (forall code,
        exists phrase,
          serial_text dp (calls (report_alarm_message (F:=F) code)) =
            ("ALARM: " ++ phrase ++ CRLF)%string).
Proof.
  intros Hnd. split; [|split].
  - intros code phrase Hin Hcode.
    rewrite report_alarm_message_calls, to_int8_small by lia.
    erewrite switch_hit;
      [| exact Hnd
       | apply (in_map (fun lp : Z * string => (fst lp, printPgmString (F:=F) (snd lp)))) in Hin;
         exact Hin].
    reflexivity.
  - intros code Hcode Hnotin.
    rewrite report_alarm_message_calls, to_int8_small by lia.
    rewrite switch_miss by exact Hnotin. reflexivity.
  - intros code. rewrite report_alarm_message_calls.
    apply (switch_elim
             (fun k : io F unit =>
                exists phrase,
                  serial_text dp ([PgmString "ALARM: "] ++ calls k ++ [PgmString CRLF; DelayMs 500]) =
                    ("ALARM: " ++ phrase ++ CRLF)%string)).
    + exists ""%string. reflexivity.
    + repeat constructor.
      * exists "Hard/soft limit"%string. reflexivity.
      * exists "Abort during cycle"%string. reflexivity.
      * exists "Probe fail"%string. reflexivity.
Qed.

End Frames.

(** ** The settings dump *)

Section SettingsDump.

Context {F : Type} `{FloatArith F} `{settings_h} `{nuts_bolts_h F}.

(** The value handed to the printer for each setting: the acceleration
    values ($6 to $8) divided by 3600, the max-travel values ($9 to $11)
    negated, every other setting as it is stored (a flag as the truth value
    of its bit). *)
Lemma report_grbl_settings_values (settings : settings_t F) :
  map (fun index => setting_shown index (calls (report_grbl_settings settings))) (seq 0 31) =
    [ Some (Float (steps_per_mm settings !!! X_AXIS));
      Some (Float (steps_per_mm settings !!! Y_AXIS));
      Some (Float (steps_per_mm settings !!! Z_AXIS));
      Some (Float (max_rate settings !!! X_AXIS));
      Some (Float (max_rate settings !!! Y_AXIS));
      Some (Float (max_rate settings !!! Z_AXIS));
      Some (Float (f_div (acceleration settings !!! X_AXIS) (f_of_int 3600)));
      Some (Float (f_div (acceleration settings !!! Y_AXIS) (f_of_int 3600)));
      Some (Float (f_div (acceleration settings !!! Z_AXIS) (f_of_int 3600)));
      Some (Float (f_neg (max_travel settings !!! X_AXIS)));
      Some (Float (f_neg (max_travel settings !!! Y_AXIS)));
      Some (Float (f_neg (max_travel settings !!! Z_AXIS)));
      Some (UnsignedBase10 (pulse_microseconds settings));
      Some (UnsignedBase10 (step_invert_mask settings));
      Some (UnsignedBase10 (dir_invert_mask settings));
      Some (UnsignedBase10 (stepper_idle_lock_time settings));
      Some (Float (junction_deviation settings));
      Some (Float (arc_tolerance settings));
      Some (UnsignedBase10 (decimal_places settings));
      Some (UnsignedBase10 (Z.b2z (bit_istrue (flags settings) BITFLAG_REPORT_INCHES)));
      Some (UnsignedBase10 (Z.b2z (bit_istrue (flags settings) BITFLAG_AUTO_START)));
      Some (UnsignedBase10 (Z.b2z (bit_istrue (flags settings) BITFLAG_INVERT_ST_ENABLE)));
      Some (UnsignedBase10 (Z.b2z (bit_istrue (flags settings) BITFLAG_INVERT_LIMIT_PINS)));
      Some (UnsignedBase10 (Z.b2z (bit_istrue (flags settings) BITFLAG_SOFT_LIMIT_ENABLE)));
      Some (UnsignedBase10 (Z.b2z (bit_istrue (flags settings) BITFLAG_HARD_LIMIT_ENABLE)));
      Some (UnsignedBase10 (Z.b2z (bit_istrue (flags settings) BITFLAG_HOMING_ENABLE)));
      Some (UnsignedBase10 (homing_dir_mask settings));
      Some (Float (homing_feed_rate settings));
      Some (Float (homing_seek_rate settings));
      Some (UnsignedBase10 (homing_debounce_delay settings));
      Some (Float (homing_pulloff settings)) ]
  /\ length (values_shown (calls (report_grbl_settings settings))) = 34%nat
  /\ shown_after "step port invert mask:" (calls (report_grbl_settings settings)) =
       Some (Base2 (step_invert_mask settings) bits_step_invert_mask)
  /\ shown_after "dir port invert mask:" (calls (report_grbl_settings settings)) =
       Some (Base2 (dir_invert_mask settings) bits_dir_invert_mask)
  /\ shown_after "homing dir invert mask:" (calls (report_grbl_settings settings)) =
       Some (Base2 (homing_dir_mask settings) bits_homing_dir_mask).
Proof.
  repeat split; vm_compute; reflexivity.
Qed.



End SettingsDump.

(** ** The real-time status line *)

Section RealtimeExample.

Context `{system_h} `{settings_h} `{nuts_bolts_h spec_float} `{config_h}.

(** C2. With [steps_per_mm = [250,250,200]], the report-inches flag off,
    three decimals, position [2500,2500,2000], state Run and all offsets
    zero, a three-axis build without line numbers emits exactly
    "<Run,MPos:10.000,10.000,10.000,WPos:10.000,10.000,10.000>\r\n". *)
Theorem report_realtime_status_run_line
    (settings : settings_t spec_float) (sys : system_t)
    (gc_state : parser_state_t spec_float) (block : option plan_block_t) :
  N_AXIS = 3%nat ->
  USE_LINE_NUMBERS = false ->
  NoDup state_codes ->
  steps_per_mm settings = [f_of_int 250; f_of_int 250; f_of_int 200] ->
  bit_istrue (flags settings) BITFLAG_REPORT_INCHES = false ->
  decimal_places settings = 3 ->
  position sys = [2500; 2500; 2000] ->
  state sys = STATE_CYCLE ->
  coord_system gc_state = [f_of_int 0; f_of_int 0; f_of_int 0] ->
  coord_offset gc_state = [f_of_int 0; f_of_int 0; f_of_int 0] ->
  serial_text (decimal_places settings)
    (calls (report_realtime_status settings sys gc_state block)) =
    ("<Run,MPos:10.000,10.000,10.000,WPos:10.000,10.000,10.000>" ++ CRLF)%string.
Proof.
  intros HN HL Hnd Hspm Hinch Hdp Hpos Hst Hcs Hco.
  unfold report_realtime_status, uninitialised, before_last_axis.
  erewrite switch_hit; [| exact Hnd | rewrite Hst; simpl; tauto].
  rewrite HN, HL, Hspm, Hinch, Hdp, Hpos, Hcs, Hco.
  vm_compute. reflexivity.
Qed.

End RealtimeExample.

Section Realtime.

Context {F : Type} `{FloatArith F} `{system_h} `{settings_h} `{nuts_bolts_h F} `{config_h}.

Variable settings : settings_t F.
Variable sys : system_t.
Variable gc_state : parser_state_t F.
Variable block : option plan_block_t.

Lemma switch_map {A B} (f : A -> B) (x : Z) (cases : list (Z * A)) (d : A) :
  f (switch x cases d) = switch x (map (fun lk : Z * A => (fst lk, f (snd lk))) cases) (f d).
Proof.
  induction cases as [|[l k] cases IH]; simpl; [reflexivity|].
  destruct (x =? l); [reflexivity | exact IH].
Qed.

Lemma state_switch_calls :
  calls (switch (state sys)
           [ (STATE_IDLE, printPgmString (F:=F) "<Idle");
             (STATE_QUEUED, printPgmString "<Queue");
             (STATE_CYCLE, printPgmString "<Run");
             (STATE_HOLD, printPgmString "<Hold");
             (STATE_HOMING, printPgmString "<Home");
             (STATE_ALARM, printPgmString "<Alarm");
             (STATE_CHECK_MODE, printPgmString "<Check") ]
           (ret tt)) = state_token_calls sys.
Proof.
  unfold state_token_calls, state_token.
  rewrite (switch_map (fun o : option string =>
             match o with Some token => [PgmString (F:=F) ("<" ++ token)] | None => [] end)).
  rewrite (switch_map calls). reflexivity.
Qed.

Lemma fmap_is_map {A B} (f : A -> B) (l : list A) : f <$> l = map f l.
Proof. induction l as [|x l IH]; [reflexivity|]. cbn. rewrite <- IH. reflexivity. Qed.

(** A loop that rewrites a local array element by element. *)
Lemma for_loop_update (body : nat -> list F -> io F (list F))
    (out : nat -> F -> list (call F)) (g : nat -> F -> F) :
  (forall done x rest,
     body (length done) (done ++ x :: rest) =
       (out (length done) x, done ++ g (length done) x :: rest)) ->
  forall rest done,
    for_loop body (length done) (length rest) (done ++ rest) =
      (concat (imap (fun j x => out (length done + j)%nat x) rest),
       done ++ imap (fun j x => g (length done + j)%nat x) rest).
Proof.
  intros Hbody. induction rest as [|x rest IH]; intros done.
  - reflexivity.
  - cbn [length for_loop]. rewrite Hbody, bind_pair.
    rewrite (cons_middle _ done rest), app_assoc.
    replace (S (length done)) with (length (done ++ [g (length done) x]))
      by (rewrite length_app; simpl; lia).
    rewrite IH. rewrite !imap_cons. cbn [concat calls result fst snd].
    rewrite Nat.add_0_r, <- app_assoc. cbn [app].
    rewrite length_app. cbn [length].
    f_equal; [f_equal|f_equal; f_equal]; [f_equal|];
      apply imap_ext; intros j y _; cbn; f_equal; lia.
Qed.

Lemma machine_position_step (done : list F) (x : F) (rest : list F) :
  (fun i print_position =>
      let print_position :=
        <[i := f_div (f_of_int (position sys !!! i)) (steps_per_mm settings !!! i)]> print_position in
      let print_position :=
        if bit_istrue (flags settings) BITFLAG_REPORT_INCHES
        then <[i := f_mul (print_position !!! i) INCH_PER_MM]> print_position
        else print_position in
      printFloat (print_position !!! i) ;;
      printPgmString "," ;;
      ret print_position) (length done) (done ++ x :: rest)
  = ([Float (machine_position settings sys (length done)); PgmString ","],
     done ++ machine_position settings sys (length done) :: rest).
Proof.
  unfold machine_position. cbv beta zeta.
  rewrite insert_app_r_alt by lia. rewrite Nat.sub_diag. cbn [list_insert insert].
  destruct (bit_istrue (flags settings) BITFLAG_REPORT_INCHES).
  - rewrite list_lookup_total_middle by reflexivity.
    rewrite insert_app_r_alt by lia. rewrite Nat.sub_diag. cbn [list_insert insert].
    rewrite list_lookup_total_middle by reflexivity. reflexivity.
  - rewrite list_lookup_total_middle by reflexivity. reflexivity.
Qed.

Lemma work_position_step (done : list F) (x : F) (rest : list F) :
  (fun i print_position =>
      let print_position :=
        if bit_istrue (flags settings) BITFLAG_REPORT_INCHES
        then <[i := f_sub (print_position !!! i)
                      (f_mul (f_add (coord_system gc_state !!! i) (coord_offset gc_state !!! i))
                             INCH_PER_MM)]> print_position
        else <[i := f_sub (print_position !!! i)
                      (f_add (coord_system gc_state !!! i) (coord_offset gc_state !!! i))]> print_position in
      printFloat (print_position !!! i) ;;
      (if before_last_axis i then printPgmString "," else ret tt) ;;
      ret print_position) (length done) (done ++ x :: rest)
  = (Float (f_sub x (work_offset settings gc_state (length done)))
       :: (if before_last_axis (length done) then [PgmString ","] else []),
     done ++ f_sub x (work_offset settings gc_state (length done)) :: rest).
Proof.
  unfold work_offset. cbv beta zeta.
  rewrite list_lookup_total_middle by reflexivity.
  destruct (bit_istrue (flags settings) BITFLAG_REPORT_INCHES);
    rewrite insert_app_r_alt by lia; rewrite Nat.sub_diag; cbn [list_insert insert];
    rewrite list_lookup_total_middle by reflexivity;
    destruct (before_last_axis (length done)); reflexivity.
Qed.

Lemma concat_comma_after_each (g : nat -> F -> F) (l : list F) :
  concat (imap (fun j x => [Float (g j x); PgmString ","]) l) = comma_after_each (imap g l).
Proof.
  revert g. induction l as [|x l IH]; intros g; [reflexivity|].
  rewrite !imap_cons. cbn [concat comma_after_each flat_map app].
  f_equal. f_equal. apply (IH (g ∘ S)).
Qed.

Lemma concat_comma_between (g : nat -> F -> F) (l : list F) (from : nat) :
  (from + length l)%nat = N_AXIS ->
  concat (imap (fun j x => Float (g (from + j)%nat x)
                             :: (if before_last_axis (from + j) then [PgmString ","] else [])) l)
  = comma_between (imap (fun j x => g (from + j)%nat x) l).
Proof.
  revert from. induction l as [|x l IH]; intros from Hlen; [reflexivity|].
  rewrite !imap_cons. cbn [concat length] in *. rewrite Nat.add_0_r.
  assert (Hshift : forall (h : nat -> F -> list (call F)) (h' : nat -> F -> list (call F)),
             (forall j y, h j y = h' j y) -> concat (imap h l) = concat (imap h' l)).
  { intros h h' Hext. f_equal. apply imap_ext. intros j y _. apply Hext. }
  rewrite (Hshift _ (fun j y => Float (g (S from + j)%nat y)
                                  :: (if before_last_axis (S from + j) then [PgmString ","] else []))).
  2:{ intros j y. cbn. replace (from + S j)%nat with (S (from + j)) by lia. reflexivity. }
  rewrite IH by lia.
  rewrite (imap_ext (fun j y => g (S from + j)%nat y) ((fun j y => g (from + j)%nat y) ∘ S)).
  2:{ intros j y _. cbn. replace (from + S j)%nat with (S (from + j)) by lia. reflexivity. }
  unfold before_last_axis. destruct l as [|x' l].
  - cbn [length] in Hlen. destruct (Z.ltb_spec (Z.of_nat from) (Z.of_nat N_AXIS - 1)); [lia|].
    reflexivity.
  - cbn [length] in Hlen. destruct (Z.ltb_spec (Z.of_nat from) (Z.of_nat N_AXIS - 1)); [|lia].
    rewrite imap_cons. reflexivity.
Qed.

(** The machine positions and the work positions of all axes. *)
Lemma report_realtime_status_calls :
  calls (report_realtime_status settings sys gc_state block) =
    state_token_calls sys
    ++ [PgmString ",MPos:"]
    ++ comma_after_each (map (machine_position settings sys) (seq 0 N_AXIS))
    ++ [PgmString "WPos:"]
    ++ comma_between (imap (fun i m => f_sub m (work_offset settings gc_state i))
                           (map (machine_position settings sys) (seq 0 N_AXIS)))
    ++ status_line_end block.
Proof.
  assert (Hm := for_loop_update _
                  (fun i _ => [Float (machine_position settings sys i); PgmString ","])
                  (fun i _ => machine_position settings sys i)
                  machine_position_step (replicate N_AXIS inhabitant) []).
  assert (Hw := for_loop_update _
                  (fun i x => Float (f_sub x (work_offset settings gc_state i))
                                :: (if before_last_axis i then [PgmString ","] else []))
                  (fun i x => f_sub x (work_offset settings gc_state i))
                  work_position_step
                  (map (machine_position settings sys) (seq 0 N_AXIS)) []).
  cbn [length app] in Hm, Hw.
  rewrite length_replicate in Hm. rewrite length_map, length_seq in Hw.
  rewrite concat_comma_after_each in Hm.
  rewrite (imap_seq_0 (replicate N_AXIS inhabitant) (machine_position settings sys)) in Hm.
  rewrite length_replicate, fmap_is_map in Hm.
  rewrite (concat_comma_between (fun j x => f_sub x (work_offset settings gc_state j)) _ 0) in Hw
    by (rewrite length_map, length_seq; reflexivity).
  cbn [Nat.add] in Hw.
  unfold report_realtime_status, uninitialised.
  step_bind. rewrite state_switch_calls. f_equal.
  step_bind. f_equal.
  step_bind. rewrite Hm. cbn [calls result fst snd]. f_equal.
  step_bind. f_equal.
  step_bind. rewrite Hw. cbn [calls result fst snd]. f_equal.
  unfold status_line_end, plan_get_current_block.
  step_bind. destruct USE_LINE_NUMBERS; reflexivity.
Qed.

Lemma imap_seq_index {B} (h : nat -> nat -> B) (n from : nat) :
  imap (fun j x => h (from + j)%nat x) (seq from n) = map (fun i => h i i) (seq from n).
Proof.
  revert from. induction n as [|n IH]; intros from; [reflexivity|].
  cbn [seq map]. rewrite imap_cons, Nat.add_0_r. f_equal.
  rewrite <- IH. apply imap_ext. intros j x _. cbn. f_equal. lia.
Qed.

Lemma work_positions_imap :
  imap (fun i m => f_sub m (work_offset settings gc_state i))
       (map (machine_position settings sys) (seq 0 N_AXIS))
  = map (work_position settings sys gc_state) (seq 0 N_AXIS).
Proof.
  rewrite <- fmap_is_map, imap_fmap.
  apply (imap_seq_index
           (fun j x => f_sub (machine_position settings sys x) (work_offset settings gc_state j))
           N_AXIS 0).
Qed.

(** C3. In the status line the machine positions are printed with a comma
    after every axis value, the last one included, and the work positions
    with commas between the values only: what follows the last work
    position is the end of the line. *)
Theorem report_realtime_status_commas :
  calls (report_realtime_status settings sys gc_state block) =
    state_token_calls sys
    ++ [PgmString ",MPos:"]
    ++ comma_after_each (map (machine_position settings sys) (seq 0 N_AXIS))
    ++ [PgmString "WPos:"]
    ++ comma_between (map (work_position settings sys gc_state) (seq 0 N_AXIS))
    ++ status_line_end block.
Proof.
  rewrite report_realtime_status_calls, work_positions_imap. reflexivity.
Qed.

Lemma values_after_state_token (label : string) (rest : list (call F)) :
  has_char "<" label = false ->
  values_after label (state_token_calls sys ++ rest) = values_after label rest.
Proof.
  intros Hlabel. unfold state_token_calls. destruct (state_token sys) as [token|]; [|reflexivity].
  cbn [app values_after].
  destruct (String.eqb_spec ("<" ++ token) label) as [Heq|_]; [|reflexivity].
  subst label. cbn in Hlabel. discriminate.
Qed.

Lemma values_run_comma_after_each (vs : list F) (rest : list (call F)) :
  values_run (comma_after_each vs ++ rest) = vs ++ values_run rest.
Proof.
  induction vs as [|v vs IH]; [reflexivity|]. cbn. f_equal. exact IH.
Qed.

Lemma values_after_comma_after_each (label : string) (vs : list F) (rest : list (call F)) :
  label <> ","%string ->
  values_after label (comma_after_each vs ++ rest) = values_after label rest.
Proof.
  intros Hlabel. induction vs as [|v vs IH]; [reflexivity|].
  cbn [comma_after_each flat_map app values_after].
  destruct (String.eqb_spec "," label) as [Heq|_]; [congruence | exact IH].
Qed.

Lemma values_run_comma_between (vs : list F) (rest : list (call F)) :
  values_run rest = [] ->
  values_run (comma_between vs ++ rest) = vs.
Proof.
  intros Hrest. induction vs as [|v vs IH]; [exact Hrest|].
  destruct vs as [|v' vs].
  - cbn. rewrite Hrest. reflexivity.
  - cbn [comma_between app values_run]. cbn [String.eqb Ascii.eqb Bool.eqb].
    f_equal. exact IH.
Qed.

Lemma values_run_status_line_end : values_run (status_line_end (F:=F) block) = [].
Proof. unfold status_line_end. destruct USE_LINE_NUMBERS; reflexivity. Qed.

(** C4. The values printed after "WPos:" are, axis by axis, the values
    printed after ",MPos:" minus the sum of the coordinate-system offset and
    the G92 offset of that axis, the sum being multiplied by the inch
    factor exactly when the machine position is; there is one value per
    axis in each list. *)
Theorem report_realtime_status_work_position :
  values_after "WPos:" (calls (report_realtime_status settings sys gc_state block)) =
    imap (fun i mpos => f_sub mpos (work_offset settings gc_state i))
         (values_after ",MPos:" (calls (report_realtime_status settings sys gc_state block)))
  /\ values_after ",MPos:" (calls (report_realtime_status settings sys gc_state block)) =
       map (machine_position settings sys) (seq 0 N_AXIS)
  /\ length (values_after "WPos:" (calls (report_realtime_status settings sys gc_state block))) = N_AXIS.
Proof.
  assert (Hm : values_after ",MPos:" (calls (report_realtime_status settings sys gc_state block)) =
               map (machine_position settings sys) (seq 0 N_AXIS)).
  { rewrite report_realtime_status_calls.
    rewrite values_after_state_token by reflexivity.
    cbn [app values_after String.eqb Ascii.eqb Bool.eqb].
    rewrite values_run_comma_after_each. cbn. apply app_nil_r. }
  assert (Hw : values_after "WPos:" (calls (report_realtime_status settings sys gc_state block)) =
               imap (fun i mpos => f_sub mpos (work_offset settings gc_state i))
                    (map (machine_position settings sys) (seq 0 N_AXIS))).
  { rewrite report_realtime_status_calls.
    rewrite values_after_state_token by reflexivity.
    cbn [app values_after String.eqb Ascii.eqb Bool.eqb].
    rewrite values_after_comma_after_each by discriminate.
    cbn [app values_after String.eqb Ascii.eqb Bool.eqb].
    apply values_run_comma_between, values_run_status_line_end. }
  rewrite Hw, Hm. split; [reflexivity|]. split; [reflexivity|].
  rewrite length_imap, length_map, length_seq. reflexivity.
Qed.

End Realtime.

(** *** The characters of the numbers printed *)

Lemma has_char_app (c : ascii) (a b : string) :
  has_char c (a ++ b) = has_char c a || has_char c b.
Proof.
  induction a as [|x a IH]; [reflexivity|].
  cbn [String.append has_char]. rewrite IH. apply orb_assoc.
Qed.

Lemma has_char_of_list (c : ascii) (l : list ascii) :
  (forall x, In x l -> x <> c) -> has_char c (string_of_list_ascii l) = false.
Proof.
  induction l as [|x l IH]; intros Hl; [reflexivity|].
  cbn [string_of_list_ascii has_char].
  rewrite IH by (intros y Hy; apply Hl; right; exact Hy).
  destruct (Ascii.eqb_spec x c) as [Heq|_]; [|reflexivity].
  exfalso. apply (Hl x); [left; reflexivity | exact Heq].
Qed.

Lemma digit_char_not_lt (d : Z) : 0 <= d < 10 -> digit_char d <> "<"%char.
Proof.
  intros Hd.
  assert (Hcases : d = 0 \/ d = 1 \/ d = 2 \/ d = 3 \/ d = 4 \/ d = 5 \/ d = 6
                   \/ d = 7 \/ d = 8 \/ d = 9) by lia.
  repeat (destruct Hcases as [->|Hcases]; [discriminate|]). subst d. discriminate.
Qed.

Lemma extract_digits_not_lt (buf : nat) :
  forall n x, In x (extract_digits buf n) -> x <> "<"%char.
Proof.
  induction buf as [|buf IH]; intros n x Hin; [contradiction|].
  cbn [extract_digits] in Hin. destruct (0 <? n); [|contradiction].
  destruct Hin as [<-|Hin].
  - apply digit_char_not_lt, Z.mod_pos_bound. lia.
  - exact (IH _ _ Hin).
Qed.

Lemma emit_reversed_not_lt (buf : nat) (n : Z) :
  has_char "<" (emit_reversed (extract_digits buf n)) = false.
Proof.
  unfold emit_reversed. apply has_char_of_list. intros x Hin.
  apply in_rev in Hin. exact (extract_digits_not_lt _ _ _ Hin).
Qed.

Lemma decimal_text_not_lt (n : Z) : has_char "<" (decimal_text n) = false.
Proof.
  unfold decimal_text. destruct (n <=? 0); [reflexivity | apply emit_reversed_not_lt].
Qed.

Lemma printInteger_text_not_lt (n : Z) : has_char "<" (printInteger_text n) = false.
Proof.
  unfold printInteger_text. destruct (n <? 0).
  - cbn [has_char]. rewrite decimal_text_not_lt. reflexivity.
  - apply decimal_text_not_lt.
Qed.

Lemma fixed_digits_not_lt (d : nat) :
  forall n, has_char "<" (Binary32.fixed_digits d n) = false.
Proof.
  induction d as [|d IH]; intros n; [reflexivity|].
  cbn [Binary32.fixed_digits]. rewrite has_char_app, IH. cbn [has_char orb].
  destruct (Ascii.eqb_spec (digit_char (n mod 10)) "<") as [Heq|_]; [|reflexivity].
  exfalso. revert Heq. apply digit_char_not_lt, Z.mod_pos_bound. lia.
Qed.

Lemma fixed_point_text_not_lt (d r : Z) :
  has_char "<" (Binary32.fixed_point_text d r) = false.
Proof.
  unfold Binary32.fixed_point_text.
  rewrite !has_char_app, decimal_text_not_lt, fixed_digits_not_lt. reflexivity.
Qed.

(** The binary32 float printer never prints "<". *)
Lemma binary32_printFloat_not_lt (decimal_places : Z) (x : spec_float) :
  has_char "<" (Binary32.printFloat decimal_places x) = false.
Proof.
  destruct x as [s|s| |s m e]; cbn [Binary32.printFloat].
  - apply fixed_point_text_not_lt.
  - destruct s; reflexivity.
  - reflexivity.
  - rewrite has_char_app, fixed_point_text_not_lt. destruct s; reflexivity.
Qed.

Section RealtimeState.

Context {F : Type} `{FloatArith F} `{system_h} `{settings_h} `{nuts_bolts_h F} `{config_h}.

Variable settings : settings_t F.
Variable sys : system_t.
Variable gc_state : parser_state_t F.
Variable block : option plan_block_t.

Lemma state_token_known (code : Z) (token : string) :
  NoDup state_codes -> In (code, token) state_tokens -> state sys = code ->
  state_token sys = Some token.
Proof.
  intros Hnd Hin Hst. unfold state_token. rewrite Hst.
  apply switch_hit.
  - exact Hnd.
  - apply (in_map (fun lt : Z * string => (fst lt, Some (snd lt)))) in Hin. exact Hin.
Qed.

Lemma state_token_unknown : ~ In (state sys) state_codes -> state_token sys = None.
Proof. intros Hnotin. unfold state_token. apply switch_miss. exact Hnotin. Qed.

Lemma no_fixed_char_comma_after_each (c : ascii) (vs : list F) :
  has_char c "," = false -> no_fixed_char c (comma_after_each vs).
Proof.
  intros Hc. induction vs as [|v vs IH]; cbn; repeat constructor; assumption.
Qed.

Lemma no_fixed_char_comma_between (c : ascii) (vs : list F) :
  has_char c "," = false -> no_fixed_char c (comma_between vs).
Proof.
  intros Hc. induction vs as [|v vs IH]; [constructor|].
  destruct vs as [|v' vs]; cbn [comma_between]; repeat constructor; assumption.
Qed.

Lemma serial_text_comma_after_each_not_lt (dp : Z) (vs : list F) :
  (forall x, has_char "<" (printFloat_text dp x) = false) ->
  has_char "<" (serial_text dp (comma_after_each vs)) = false.
Proof.
  intros Hfloat. induction vs as [|v vs IH]; [reflexivity|].
  cbn [comma_after_each flat_map app serial_text fold_right call_text].
  rewrite has_char_app, Hfloat. cbn [orb String.append has_char]. exact IH.
Qed.

Lemma serial_text_comma_between_not_lt (dp : Z) (vs : list F) :
  (forall x, has_char "<" (printFloat_text dp x) = false) ->
  has_char "<" (serial_text dp (comma_between vs)) = false.
Proof.
  intros Hfloat. induction vs as [|v vs IH]; [reflexivity|].
  destruct vs as [|v' vs].
  - cbn [comma_between serial_text fold_right call_text].
    rewrite has_char_app, Hfloat. reflexivity.
  - cbn [comma_between]. cbn [serial_text fold_right call_text].
    rewrite has_char_app, Hfloat. cbn [orb String.append has_char]. exact IH.
Qed.

Lemma serial_text_status_line_end_not_lt (dp : Z) :
  has_char "<" (serial_text dp (status_line_end (F:=F) block)) = false.
Proof.
  unfold status_line_end. destruct USE_LINE_NUMBERS; [|reflexivity].
  cbn [app serial_text fold_right call_text].
  rewrite !has_char_app, printInteger_text_not_lt. reflexivity.
Qed.

(** C10. The opening "<" comes with the state token only.  When the state
    is one of the seven values the line begins with "<" and the token of
    that state, followed by ",MPos:"; for any other state value the line
    begins with ",MPos:", none of the fixed strings printed contains "<",
    and with a float printer that prints no "<" the whole line is without
    one.  So a state among the seven never gives a line without its
    opening delimiter.  The case labels are pairwise distinct. *)
Theorem report_realtime_status_delimiter :
  NoDup state_codes ->
  (forall code token,
     In (code, token) state_tokens -> state sys = code ->
     exists rest,
       serial_text (decimal_places settings)
         (calls (report_realtime_status settings sys gc_state block)) =
         ("<" ++ token ++ ",MPos:" ++ rest)%string)
  /\ (~ In (state sys) state_codes ->
      (exists rest,
         serial_text (decimal_places settings)
           (calls (report_realtime_status settings sys gc_state block)) =
           (",MPos:" ++ rest)%string)
      /\ no_fixed_char "<" (calls (report_realtime_status settings sys gc_state block))
      /\ ((forall x, has_char "<" (printFloat_text (decimal_places settings) x) = false) ->
          has_char "<"
            (serial_text (decimal_places settings)
               (calls (report_realtime_status settings sys gc_state block))) = false))
  /\ (In (state sys) state_codes ->
      exists rest,
        serial_text (decimal_places settings)
          (calls (report_realtime_status settings sys gc_state block)) =
          ("<" ++ rest)%string).
Proof.
  intros Hnd.
  assert (Hknown : forall code token,
             In (code, token) state_tokens -> state sys = code ->
             exists rest,
               serial_text (decimal_places settings)
                 (calls (report_realtime_status settings sys gc_state block)) =
                 ("<" ++ token ++ ",MPos:" ++ rest)%string).
  { intros code token Hin Hst.
    rewrite report_realtime_status_calls. unfold state_token_calls.
    rewrite (state_token_known code token Hnd Hin Hst).
    rewrite !serial_text_app. eexists.
    cbn [serial_text fold_right call_text].
    rewrite string_app_nil_r, !string_app_assoc. reflexivity. }
  split; [exact Hknown|]. split.
  - intros Hnotin. rewrite report_realtime_status_calls. unfold state_token_calls.
    rewrite (state_token_unknown Hnotin). cbn [app]. split; [|split].
    + eexists. cbn [serial_text fold_right call_text]. reflexivity.
    + unfold no_fixed_char.
      repeat first [ apply Forall_cons; split; [reflexivity|] | apply Forall_app; split ].
      all: first [ apply no_fixed_char_comma_after_each; reflexivity
                 | apply no_fixed_char_comma_between; reflexivity
                 | unfold status_line_end; destruct USE_LINE_NUMBERS; repeat constructor ].
    + intros Hfloat.
      repeat (rewrite ?serial_text_cons, ?serial_text_app, ?has_char_app).
      rewrite (serial_text_comma_after_each_not_lt _ _ Hfloat).
      rewrite (serial_text_comma_between_not_lt _ _ Hfloat).
      rewrite serial_text_status_line_end_not_lt. reflexivity.
  - intros Hin. apply in_map_iff in Hin. destruct Hin as [[code token] [Hcode Hin]].
    cbn in Hcode. destruct (Hknown code token Hin (eq_sym Hcode)) as [rest Hrest].
    exists (token ++ ",MPos:" ++ rest)%string. exact Hrest.
Qed.

End RealtimeState.

(** ** The coordinate dump *)

Section CoordinateDump.

Context {F : Type} `{FloatArith F} `{report_h} `{settings_h} `{nuts_bolts_h F}.

Variable settings : settings_t F.
Variable sys : system_t.
Variable gc_state : parser_state_t F.
Variable store : nat -> option (list F).

Lemma slot_name_calls (slot : nat) :
  calls (switch (Z.of_nat slot)
           [ (6, printPgmString (F:=F) "28");
             (7, printPgmString "30") ]
           (print_unsigned_base10 (Z.of_nat slot + 54)))
  = if (slot =? 6)%nat then [PgmString "28"]
    else if (slot =? 7)%nat then [PgmString "30"]
    else [UnsignedBase10 (Z.of_nat slot + 54)].
Proof.
  cbn [switch].
  destruct (Nat.eqb_spec slot 6) as [->|H6]; [reflexivity|].
  destruct (Z.eqb_spec (Z.of_nat slot) 6) as [?|_]; [lia|].
  destruct (Nat.eqb_spec slot 7) as [->|H7]; [reflexivity|].
  destruct (Z.eqb_spec (Z.of_nat slot) 7) as [?|_]; [lia|].
  reflexivity.
Qed.

Lemma bind_settings_read_coord_data {A} (slot : nat) (k : option (list F) -> io F A) :
  bind (settings_read_coord_data store slot) k =
    (ReadCoordData (Z.of_nat slot) :: calls (k (store slot)), result (k (store slot))).
Proof.
  unfold settings_read_coord_data, emit, ret.
  rewrite bind_pair. cbv beta. cbn [calls result fst snd app].
  rewrite bind_pair. reflexivity.
Qed.

(** One turn of the slot loop. *)
Lemma report_ngc_slots_step (slot n : nat) :
  report_ngc_slots settings store slot (S n) =
    match store slot with
    | None =>
        (ReadCoordData (Z.of_nat slot) :: calls (report_status_message (F:=F) STATUS_SETTING_READ_FAIL),
         false)
    | Some coord_data =>
        (coord_line_calls settings slot coord_data
           ++ calls (report_ngc_slots settings store (S slot) n),
         result (report_ngc_slots settings store (S slot) n))
    end.
Proof.
  cbn [report_ngc_slots]. rewrite bind_settings_read_coord_data.
  destruct (store slot) as [coord_data|].
  - f_equal.
    + repeat step_bind. rewrite slot_name_calls. unfold coord_line_calls.
      cbn [calls printPgmString emit fst app]. rewrite <- !app_assoc. reflexivity.
    + repeat (rewrite result_bind; cbv beta). reflexivity.
  - f_equal.
    + step_bind. cbn [calls ret fst]. rewrite app_nil_r. reflexivity.
    + rewrite result_bind. reflexivity.
Qed.

Lemma report_ngc_slots_complete (n : nat) :
  forall from,
    (forall slot, (from <= slot < from + n)%nat -> store slot <> None) ->
    report_ngc_slots settings store from n =
      (flat_map (slot_calls settings store) (seq from n), true).
Proof.
  induction n as [|n IH]; intros from Hall; [reflexivity|].
  rewrite report_ngc_slots_step. cbn [seq flat_map]. unfold slot_calls at 1.
  destruct (store from) as [coord_data|] eqn:Hfrom.
  - rewrite IH by (intros slot Hslot; apply Hall; lia). reflexivity.
  - exfalso. apply (Hall from); [lia | exact Hfrom].
Qed.

Lemma report_ngc_slots_failure (n : nat) :
  forall from k,
    (from <= k < from + n)%nat -> store k = None ->
    (forall slot, (from <= slot < k)%nat -> store slot <> None) ->
    report_ngc_slots settings store from n =
      (flat_map (slot_calls settings store) (seq from (k - from))
         ++ ReadCoordData (Z.of_nat k)
              :: calls (report_status_message (F:=F) STATUS_SETTING_READ_FAIL),
       false).
Proof.
  induction n as [|n IH]; intros from k Hk Hnone Hbefore; [lia|].
  rewrite report_ngc_slots_step.
  destruct (Nat.eq_dec from k) as [->|Hne].
  - rewrite Hnone, Nat.sub_diag. reflexivity.
  - destruct (store from) as [coord_data|] eqn:Hfrom.
    + rewrite (IH (S from) k) by (try assumption; try lia; intros slot Hslot; apply Hbefore; lia).
      replace (k - from)%nat with (S (k - S from)) by lia.
      cbn [seq flat_map calls result fst snd]. unfold slot_calls at 2. rewrite Hfrom.
      rewrite <- app_assoc. reflexivity.
    + exfalso. apply (Hbefore from); [lia | exact Hfrom].
Qed.

(** Either all of the first [n] slots can be read, or there is a first one
    that cannot. *)
Lemma first_read_failure (n : nat) :
  (forall slot, (slot < n)%nat -> store slot <> None)
  \/ (exists k, (k < n)%nat /\ store k = None
                /\ forall slot, (slot < k)%nat -> store slot <> None).
Proof.
  induction n as [|n [Hall|[k [Hk [Hnone Hbefore]]]]].
  - left. intros slot Hslot. lia.
  - destruct (store n) as [coord_data|] eqn:Hn.
    + left. intros slot Hslot. destruct (Nat.eq_dec slot n) as [->|Hne].
      * rewrite Hn. discriminate.
      * apply Hall. lia.
    + right. exists n. split; [lia|]. split; [exact Hn | exact Hall].
  - right. exists k. split; [lia|]. split; assumption.
Qed.

Lemma report_ngc_parameters_complete :
  (forall slot, (slot <= SETTING_INDEX_NCOORD)%nat -> store slot <> None) ->
  calls (report_ngc_parameters settings sys gc_state store) =
    flat_map (slot_calls settings store) (seq 0 (S SETTING_INDEX_NCOORD))
    ++ [PgmString "[G92:"]
    ++ calls (print_offsets settings (coord_offset gc_state))
    ++ calls (report_probe_parameters settings sys).
Proof.
  intros Hall. unfold report_ngc_parameters.
  rewrite report_ngc_slots_complete by (intros slot Hslot; apply Hall; lia).
  rewrite bind_pair. cbn [calls fst]. rewrite !calls_bind. reflexivity.
Qed.

Lemma report_ngc_parameters_failure (k : nat) :
  (k <= SETTING_INDEX_NCOORD)%nat -> store k = None ->
  (forall slot, (slot < k)%nat -> store slot <> None) ->
  calls (report_ngc_parameters settings sys gc_state store) =
    flat_map (slot_calls settings store) (seq 0 k)
    ++ ReadCoordData (Z.of_nat k)
         :: calls (report_status_message (F:=F) STATUS_SETTING_READ_FAIL).
Proof.
  intros Hk Hnone Hbefore. unfold report_ngc_parameters.
  rewrite (report_ngc_slots_failure (S SETTING_INDEX_NCOORD) 0 k)
    by (try assumption; try lia; intros slot Hslot; apply Hbefore; lia).
  rewrite Nat.sub_0_r, bind_pair. cbn [calls ret fst]. rewrite app_nil_r. reflexivity.
Qed.

Lemma filter_none (p : call F -> bool) (t : list (call F)) :
  List.Forall (fun c => p c = false) t -> List.filter p t = [].
Proof.
  intros Hall. induction Hall as [|c t Hc Hall IH]; [reflexivity|].
  cbn [List.filter]. rewrite Hc. exact IH.
Qed.

Lemma filter_no_mark (p : call F -> bool) (t : list (call F)) :
  (forall c, is_mark c = false -> p c = false) ->
  List.Forall (fun c => is_mark c = false) t -> List.filter p t = [].
Proof.
  intros Hp Hall. induction Hall as [|c t Hc Hall IH]; [reflexivity|].
  cbn [List.filter]. rewrite (Hp c Hc). exact IH.
Qed.

Lemma no_mark_print_offsets (data : list F) :
  List.Forall (fun c => is_mark c = false) (calls (print_offsets settings data)).
Proof.
  unfold print_offsets. apply for_loop_calls_Forall. intros i [].
  destruct (bit_istrue (flags settings) BITFLAG_REPORT_INCHES), (before_last_axis i);
    repeat constructor.
Qed.

(** A coordinate line holds one read attempt and one "[G", and no other
    mark. *)
Lemma filter_coord_line_calls (p : call F -> bool) (slot : nat) (coord_data : list F) :
  (forall c, is_mark c = false -> p c = false) ->
  List.filter p (coord_line_calls settings slot coord_data) =
    List.filter p [ReadCoordData (Z.of_nat slot); PgmString "[G"].
Proof.
  intros Hp. unfold coord_line_calls. rewrite List.filter_app.
  rewrite (filter_no_mark p (_ ++ _ ++ _) Hp); [apply app_nil_r|].
  apply Forall_app. split.
  - destruct (slot =? 6)%nat; [repeat constructor|].
    destruct (slot =? 7)%nat; repeat constructor.
  - apply Forall_app. split; [repeat constructor | apply no_mark_print_offsets].
Qed.

Lemma filter_slot_calls (p : call F -> bool) (hits : nat -> list (call F)) :
  (forall slot coord_data, List.filter p (coord_line_calls settings slot coord_data) = hits slot) ->
  forall slots,
    (forall slot, In slot slots -> store slot <> None) ->
    List.filter p (flat_map (slot_calls settings store) slots) = flat_map hits slots.
Proof.
  intros Hhits. induction slots as [|slot slots IH]; intros Hall; [reflexivity|].
  cbn [flat_map]. rewrite List.filter_app. unfold slot_calls at 1.
  destruct (store slot) as [coord_data|] eqn:Hslot.
  - rewrite Hhits, IH; [reflexivity|]. intros slot' Hin. apply Hall. right. exact Hin.
  - exfalso. apply (Hall slot); [left; reflexivity | exact Hslot].
Qed.

Lemma report_status_message_read_fail_calls :
  NoDup status_codes -> 0 < STATUS_SETTING_READ_FAIL < 256 ->
  calls (report_status_message (F:=F) STATUS_SETTING_READ_FAIL) =
    [PgmString "error: "; PgmString "EEPROM read fail. Using defaults"; PgmString CRLF].
Proof.
  intros Hnd Hcode. unfold report_status_message.
  rewrite to_uint8_small by lia.
  destruct (Z.eqb_spec STATUS_SETTING_READ_FAIL 0) as [?|_]; [lia|].
  repeat step_bind.
  erewrite switch_hit;
    [| exact Hnd
     | apply (status_cases_phrases STATUS_SETTING_READ_FAIL "EEPROM read fail. Using defaults");
       cbn; tauto].
  reflexivity.
Qed.

Lemma length_flat_map_one {A B} (f : A -> B) (l : list A) :
  length (flat_map (fun x => [f x]) l) = length l.
Proof. induction l as [|x l IH]; [reflexivity|]. cbn. rewrite IH. reflexivity. Qed.

Lemma flat_map_none {A B} (l : list A) : flat_map (fun _ : A => @nil B) l = [].
Proof. induction l as [|x l IH]; [reflexivity | exact IH]. Qed.

(** C6. When the read of slot [k] fails, the slots before it having been
    read, the dump consists of the lines of the slots before [k], the read
    attempt on [k] and one settings-read-failure frame: the slots read are
    0 to [k] and no other, a "[G" prefix is printed for the slots before
    [k] only, and there is exactly one error frame. *)
Theorem report_ngc_parameters_read_failure (k : nat) :
  NoDup status_codes -> 0 < STATUS_SETTING_READ_FAIL < 256 ->
  (k <= SETTING_INDEX_NCOORD)%nat -> store k = None ->
  (forall slot, (slot < k)%nat -> store slot <> None) ->
  calls (report_ngc_parameters settings sys gc_state store) =
    flat_map (slot_calls settings store) (seq 0 k)
    ++ [ReadCoordData (Z.of_nat k);
        PgmString "error: "; PgmString "EEPROM read fail. Using defaults"; PgmString CRLF]
  /\ read_attempts (calls (report_ngc_parameters settings sys gc_state store)) =
       map (fun slot => ReadCoordData (Z.of_nat slot)) (seq 0 (S k))
  /\ count_fixed "[G" (calls (report_ngc_parameters settings sys gc_state store)) = k
  /\ count_fixed "error: " (calls (report_ngc_parameters settings sys gc_state store)) = 1%nat.
Proof.
  intros Hnd Hcode Hk Hnone Hbefore.
  assert (Hreadable : forall slot, In slot (seq 0 k) -> store slot <> None).
  { intros slot Hin. apply in_seq in Hin. apply Hbefore. lia. }
  rewrite (report_ngc_parameters_failure k Hk Hnone Hbefore).
  rewrite (report_status_message_read_fail_calls Hnd Hcode).
  split; [reflexivity|]. split; [|split].
  - unfold read_attempts. rewrite List.filter_app.
    rewrite (filter_slot_calls is_read (fun slot => [ReadCoordData (Z.of_nat slot)]));
      [| intros slot coord_data; rewrite filter_coord_line_calls; [reflexivity|]
       | exact Hreadable].
    + rewrite seq_S, map_app. cbn [List.filter is_read map Nat.add]. f_equal.
    + intros c Hc. unfold is_mark in Hc. destruct (is_read c); [discriminate | reflexivity].
  - unfold count_fixed. rewrite List.filter_app.
    rewrite (filter_slot_calls (is_fixed "[G") (fun _ => [PgmString "[G"]));
      [| intros slot coord_data; rewrite filter_coord_line_calls; [reflexivity|]
       | exact Hreadable].
    + rewrite length_app, (length_flat_map_one (fun _ : nat => PgmString (F:=F) "[G")), length_seq.
      exact (Nat.add_0_r k).
    + intros c Hc. unfold is_mark in Hc.
      destruct (is_read c), (is_fixed "[G" c); try discriminate; reflexivity.
  - unfold count_fixed. rewrite List.filter_app.
    rewrite (filter_slot_calls (is_fixed "error: ") (fun _ => []));
      [| intros slot coord_data; rewrite filter_coord_line_calls; [reflexivity|]
       | exact Hreadable].
    + rewrite flat_map_none. reflexivity.
    + intros c Hc. unfold is_mark in Hc.
      destruct (is_read c), (is_fixed "[G" c), (is_fixed "error: " c); try discriminate; reflexivity.
Qed.

(** No status frame carries the start of the G92 line or of the probe
    frame. *)
Lemma report_status_message_no_tail (code : Z) :
  List.Forall (fun c => is_fixed "[G92:" c = false /\ is_fixed "[Probe:" c = false)
    (calls (report_status_message (F:=F) code)).
Proof.
  unfold report_status_message.
  destruct (to_uint8 code =? 0); [repeat constructor|].
  repeat step_bind. apply Forall_app. split; [repeat constructor|].
  apply Forall_app. split; [|repeat constructor].
  apply (switch_elim
           (fun k : io F unit =>
              List.Forall (fun c => is_fixed "[G92:" c = false /\ is_fixed "[Probe:" c = false)
                (calls k))).
  - repeat constructor.
  - repeat constructor.
Qed.

Lemma failure_without (s : string) (k : nat) :
  (forall c : call F, is_mark c = false -> is_fixed s c = false) ->
  is_fixed s (PgmString (F:=F) "[G") = false ->
  List.Forall (fun c => is_fixed s c = false)
    (calls (report_status_message (F:=F) STATUS_SETTING_READ_FAIL)) ->
  (forall slot, (slot < k)%nat -> store slot <> None) ->
  ~ In (PgmString s)
      (flat_map (slot_calls settings store) (seq 0 k)
       ++ ReadCoordData (Z.of_nat k)
            :: calls (report_status_message (F:=F) STATUS_SETTING_READ_FAIL)).
Proof.
  intros Hmark Hg Hframe Hbefore Hin.
  assert (Hfilter : In (PgmString s)
            (List.filter (is_fixed s)
               (flat_map (slot_calls settings store) (seq 0 k)
                ++ ReadCoordData (Z.of_nat k)
                     :: calls (report_status_message (F:=F) STATUS_SETTING_READ_FAIL)))).
  { apply filter_In. split; [exact Hin|]. cbn. apply String.eqb_refl. }
  rewrite List.filter_app in Hfilter.
  rewrite (filter_slot_calls (is_fixed s) (fun _ => [])) in Hfilter.
  - rewrite flat_map_none in Hfilter. cbn [app List.filter is_fixed] in Hfilter.
    rewrite (filter_none _ _ Hframe) in Hfilter. exact Hfilter.
  - intros slot coord_data. rewrite filter_coord_line_calls by exact Hmark.
    cbn [List.filter]. rewrite Hg. reflexivity.
  - intros slot Hslot. apply in_seq in Hslot. apply Hbefore. lia.
Qed.

(** C9. The "[G92:" line and the "[Probe:" frame are part of the dump
    exactly when every coordinate slot can be read; when a read fails the
    settings-read-failure frame is the last thing emitted. *)
Theorem report_ngc_parameters_tail :
  (In (PgmString "[G92:") (calls (report_ngc_parameters settings sys gc_state store))
   <-> forall slot, (slot <= SETTING_INDEX_NCOORD)%nat -> store slot <> None)
  /\ (In (PgmString "[Probe:") (calls (report_ngc_parameters settings sys gc_state store))
      <-> forall slot, (slot <= SETTING_INDEX_NCOORD)%nat -> store slot <> None)
  /\ (forall k,
        (k <= SETTING_INDEX_NCOORD)%nat -> store k = None ->
        exists before,
          calls (report_ngc_parameters settings sys gc_state store) =
            before ++ calls (report_status_message (F:=F) STATUS_SETTING_READ_FAIL)).
Proof.
  destruct (first_read_failure (S SETTING_INDEX_NCOORD)) as [Hall|[k [Hk [Hnone Hbefore]]]].
  - assert (Hall' : forall slot, (slot <= SETTING_INDEX_NCOORD)%nat -> store slot <> None)
      by (intros slot Hslot; apply Hall; lia).
    rewrite (report_ngc_parameters_complete Hall').
    split; [|split].
    + split; [intros _; exact Hall'|]. intros _.
      apply in_or_app. right. left. reflexivity.
    + split; [intros _; exact Hall'|]. intros _.
      apply in_or_app. right. right.
      apply in_or_app. right. apply in_or_app. right.
      unfold report_probe_parameters. cbv zeta. step_bind.
      apply in_or_app. left. exact (or_introl eq_refl).
    + intros k Hk Hnone. exfalso. exact (Hall' k Hk Hnone).
  - rewrite (report_ngc_parameters_failure k) by (assumption || lia).
    split; [|split].
    + split.
      * intros Hin. exfalso. revert Hin. apply failure_without.
        -- intros c Hc. unfold is_mark in Hc.
           destruct (is_read c), (is_fixed "[G" c), (is_fixed "error: " c), (is_fixed "[G92:" c);
             try discriminate; reflexivity.
        -- reflexivity.
        -- eapply List.Forall_impl; [|apply report_status_message_no_tail].
           intros c [Hc _]. exact Hc.
        -- exact Hbefore.
      * intros Hall. exfalso. apply (Hall k); [lia | exact Hnone].
    + split.
      * intros Hin. exfalso. revert Hin. apply failure_without.
        -- intros c Hc. unfold is_mark in Hc.
           destruct (is_read c), (is_fixed "[G" c), (is_fixed "error: " c), (is_fixed "[G92:" c),
             (is_fixed "[Probe:" c); try discriminate; reflexivity.
        -- reflexivity.
        -- eapply List.Forall_impl; [|apply report_status_message_no_tail].
           intros c [_ Hc]. exact Hc.
        -- exact Hbefore.
      * intros Hall. exfalso. apply (Hall k); [lia | exact Hnone].
    + intros k' _ _.
      exists (flat_map (slot_calls settings store) (seq 0 k) ++ [ReadCoordData (Z.of_nat k)]).
      rewrite <- app_assoc. reflexivity.
Qed.

End CoordinateDump.

(** ** Further properties of report.c *)

Section FeedbackAndAlarm.

Context {F : Type} `{FloatArith F} `{report_h} `{report_h_feedback}.

Lemma report_feedback_message_calls (message_code : Z) :
  calls (report_feedback_message (F:=F) message_code) =
    [PgmString "["]
    ++ calls (switch (to_uint8 message_code)
                [ (MESSAGE_CRITICAL_EVENT, printPgmString (F:=F) "Reset to continue");
                  (MESSAGE_ALARM_LOCK, printPgmString "'$H'|'$X' to unlock");
                  (MESSAGE_ALARM_UNLOCK, printPgmString "Caution: Unlocked");
                  (MESSAGE_ENABLED, printPgmString "Enabled");
                  (MESSAGE_DISABLED, printPgmString "Disabled") ]
                (ret tt))
    ++ [PgmString ("]" ++ CRLF)].
Proof. unfold report_feedback_message. rewrite !calls_bind. reflexivity. Qed.

(** X1. [report_feedback_message] puts the phrase of each of the five
    feedback codes between "[" and "]\r\n", and nothing between them for
    any other code: an unknown code gives exactly "[]\r\n".  Codes are the
    values of the [uint8_t] parameter, the case labels pairwise distinct. *)
Theorem report_feedback_message_frames (dp : Z) :
  NoDup feedback_codes ->
  (forall code phrase,
     In (code, phrase) feedback_phrases -> 0 <= code < 256 ->
     serial_text dp (calls (report_feedback_message (F:=F) code)) =
       ("[" ++ phrase ++ "]" ++ CRLF)%string)
  /\ (forall code,
        0 <= code < 256 -> ~ In code feedback_codes ->
        serial_text dp (calls (report_feedback_message (F:=F) code)) =
          ("[]" ++ CRLF)%string).
Proof.
  intros Hnd. split.
  - intros code phrase Hin Hcode.
    rewrite report_feedback_message_calls, to_uint8_small by lia.
    erewrite switch_hit;
      [| exact Hnd
       | apply (in_map (fun lp : Z * string => (fst lp, printPgmString (F:=F) (snd lp)))) in Hin;
         exact Hin].
    reflexivity.
  - intros code Hcode Hnotin.
    rewrite report_feedback_message_calls, to_uint8_small by lia.
    rewrite switch_miss by exact Hnotin. reflexivity.
Qed.

(** X2. Whatever the alarm code, known or not, [report_alarm_message]
    waits exactly once, for 500 ms, and only after the whole frame, the
    terminator included, has been handed to the printer. *)
Theorem report_alarm_message_delay (alarm_code : Z) :
  exists frame : list (call F),
    calls (report_alarm_message (F:=F) alarm_code) = frame ++ [DelayMs 500]
    /\ List.filter is_delay frame = []
    /\ last frame = Some (PgmString CRLF).
Proof.
  rewrite report_alarm_message_calls.
  apply (switch_elim
           (fun k : io F unit =>
              exists frame : list (call F),
                [PgmString "ALARM: "] ++ calls k ++ [PgmString CRLF; DelayMs 500] =
                  frame ++ [DelayMs 500]
                /\ List.filter is_delay frame = []
                /\ last frame = Some (PgmString CRLF))).
  - exists [PgmString "ALARM: "; PgmString CRLF]. repeat split.
  - repeat constructor.
    + exists [PgmString "ALARM: "; PgmString "Hard/soft limit"; PgmString CRLF]. repeat split.
    + exists [PgmString "ALARM: "; PgmString "Abort during cycle"; PgmString CRLF]. repeat split.
    + exists [PgmString "ALARM: "; PgmString "Probe fail"; PgmString CRLF]. repeat split.
Qed.

End FeedbackAndAlarm.

Section ProbeAndOffsets.

Context {F : Type} `{FloatArith F} `{system_h} `{settings_h} `{nuts_bolts_h F} `{config_h}.

Variable settings : settings_t F.
Variable sys : system_t.
Variable gc_state : parser_state_t F.
Variable block : option plan_block_t.

Lemma probe_value_step (done : list F) (x : F) (rest : list F) :
  (fun i print_position =>
      let print_position :=
        <[i := f_div (f_of_int (probe_position sys !!! i)) (steps_per_mm settings !!! i)]> print_position in
      let print_position :=
        if bit_istrue (flags settings) BITFLAG_REPORT_INCHES
        then <[i := f_mul (print_position !!! i) INCH_PER_MM]> print_position
        else print_position in
      printFloat (print_position !!! i) ;;
      (if before_last_axis i then printPgmString "," else ret tt) ;;
      ret print_position) (length done) (done ++ x :: rest)
  = (Float (probe_value settings sys (length done))
       :: (if before_last_axis (length done) then [PgmString ","] else []),
     done ++ probe_value settings sys (length done) :: rest).
Proof.
  unfold probe_value. cbv beta zeta.
  rewrite insert_app_r_alt by lia. rewrite Nat.sub_diag. cbn [list_insert insert].
  destruct (bit_istrue (flags settings) BITFLAG_REPORT_INCHES).
  - rewrite list_lookup_total_middle by reflexivity.
    rewrite insert_app_r_alt by lia. rewrite Nat.sub_diag. cbn [list_insert insert].
    rewrite list_lookup_total_middle by reflexivity.
    destruct (before_last_axis (length done)); reflexivity.
  - rewrite list_lookup_total_middle by reflexivity.
    destruct (before_last_axis (length done)); reflexivity.
Qed.

Lemma report_probe_parameters_calls :
  calls (report_probe_parameters settings sys) =
    [PgmString "[Probe:"]
    ++ comma_between (map (probe_value settings sys) (seq 0 N_AXIS))
    ++ [PgmString ("]" ++ CRLF)].
Proof.
  assert (Hp := for_loop_update _
                  (fun i (_ : F) => Float (probe_value settings sys i)
                                      :: (if before_last_axis i then [PgmString ","] else []))
                  (fun i _ => probe_value settings sys i)
                  probe_value_step (replicate N_AXIS inhabitant) []).
  cbn [length app] in Hp. rewrite length_replicate in Hp.
  rewrite (concat_comma_between (fun j _ => probe_value settings sys j) _ 0) in Hp
    by (rewrite length_replicate; reflexivity).
  cbn [Nat.add] in Hp.
  rewrite (imap_seq_0 (replicate N_AXIS inhabitant) (probe_value settings sys)) in Hp.
  rewrite length_replicate, fmap_is_map in Hp.
  unfold report_probe_parameters, uninitialised. cbv zeta.
  step_bind. f_equal.
  step_bind. rewrite Hp. reflexivity.
Qed.

(** X3. The probe frame is "[Probe:", one value per axis with commas
    between the values only, and "]\r\n"; each value is the probe position
    in steps divided by the steps per millimetre of its axis, times the inch
    factor when inches are reported.  The bracket is closed whatever the
    number of axes. *)
Theorem report_probe_parameters_frame :
  calls (report_probe_parameters settings sys) =
    [PgmString "[Probe:"]
    ++ comma_between (map (probe_value settings sys) (seq 0 N_AXIS))
    ++ [PgmString ("]" ++ CRLF)].
Proof. exact report_probe_parameters_calls. Qed.

Lemma values_after_mpos :
  values_after ",MPos:" (calls (report_realtime_status settings sys gc_state block)) =
    map (machine_position settings sys) (seq 0 N_AXIS).
Proof.
  rewrite report_realtime_status_calls.
  rewrite values_after_state_token by reflexivity.
  cbn [app values_after String.eqb Ascii.eqb Bool.eqb].
  rewrite values_run_comma_after_each. cbn. apply app_nil_r.
Qed.

(** X4. The probe frame and the status line convert steps in the same
    way: when the recorded probe position is the current position, the
    values of the probe frame are the values after ",MPos:" of the status
    line. *)
Theorem report_probe_parameters_as_machine_position :
  probe_position sys = position sys ->
  values_after "[Probe:" (calls (report_probe_parameters settings sys)) =
    values_after ",MPos:" (calls (report_realtime_status settings sys gc_state block)).
Proof.
  intros Hsame. rewrite values_after_mpos, report_probe_parameters_calls.
  cbn [app values_after String.eqb Ascii.eqb Bool.eqb].
  rewrite values_run_comma_between by reflexivity.
  apply map_ext. intros i. unfold probe_value, machine_position. rewrite Hsame. reflexivity.
Qed.

Lemma filter_comma_after_each (p : call F -> bool) (vs : list F) :
  p (PgmString ",") = false ->
  List.filter p (comma_after_each vs) = List.filter p (map Float vs).
Proof.
  intros Hcomma. induction vs as [|v vs IH]; [reflexivity|].
  cbn [comma_after_each flat_map app map List.filter]. rewrite Hcomma.
  destruct (p (Float v)); [f_equal|]; exact IH.
Qed.

Lemma filter_comma_between (p : call F -> bool) (vs : list F) :
  p (PgmString ",") = false ->
  List.filter p (comma_between vs) = List.filter p (map Float vs).
Proof.
  intros Hcomma. induction vs as [|v vs IH]; [reflexivity|].
  destruct vs as [|v' vs]; [reflexivity|].
  cbn [comma_between]. cbn [map List.filter] in *. rewrite Hcomma.
  destruct (p (Float v)); [f_equal|]; exact IH.
Qed.

Lemma filter_floats (vs : list F) : List.filter is_float (map Float vs) = map Float vs.
Proof. induction vs as [|v vs IH]; [reflexivity|]. cbn. rewrite IH. reflexivity. Qed.

Lemma filter_not_floats (p : call F -> bool) (vs : list F) :
  (forall v, p (Float v) = false) -> List.filter p (map Float vs) = [].
Proof.
  intros Hp. induction vs as [|v vs IH]; [reflexivity|]. cbn. rewrite Hp. exact IH.
Qed.

(** X9. The status line is cheap: whatever the state and the build,
    [report_realtime_status] never reads coordinate data from the settings
    store, never waits, and prints exactly two floats per axis. *)
Theorem report_realtime_status_cost :
  read_attempts (calls (report_realtime_status settings sys gc_state block)) = []
  /\ List.filter is_delay (calls (report_realtime_status settings sys gc_state block)) = []
  /\ length (List.filter is_float (calls (report_realtime_status settings sys gc_state block))) =
       (2 * N_AXIS)%nat.
Proof.
  rewrite report_realtime_status_calls. unfold read_attempts.
  rewrite !List.filter_app.
  rewrite !filter_comma_after_each, !filter_comma_between by reflexivity.
  rewrite !filter_floats, !filter_not_floats by reflexivity.
  assert (Hstate : List.filter is_read (state_token_calls (F:=F) sys) = []
                   /\ List.filter is_delay (state_token_calls (F:=F) sys) = []
                   /\ List.filter is_float (state_token_calls (F:=F) sys) = []).
  { unfold state_token_calls. destruct (state_token sys); repeat split. }
  assert (Hend : List.filter is_read (status_line_end (F:=F) block) = []
                 /\ List.filter is_delay (status_line_end (F:=F) block) = []
                 /\ List.filter is_float (status_line_end (F:=F) block) = []).
  { unfold status_line_end. destruct USE_LINE_NUMBERS; repeat split. }
  destruct Hstate as [-> [-> ->]]. destruct Hend as [-> [-> ->]].
  split; [reflexivity|]. split; [reflexivity|].
  cbn [List.filter is_float app length].
  rewrite !length_app, !length_map, length_imap, length_map, length_seq. cbn [length]. lia.
Qed.

End ProbeAndOffsets.

Section CoordinateDumpMore.

Context {F : Type} `{FloatArith F} `{report_h} `{settings_h} `{nuts_bolts_h F}.

Variable settings : settings_t F.
Variable sys : system_t.
Variable gc_state : parser_state_t F.
Variable store : nat -> option (list F).

Lemma for_loop_unit_calls (body : nat -> unit -> io F unit) (n : nat) :
  forall from,
    calls (for_loop body from n tt) = flat_map (fun i => calls (body i tt)) (seq from n).
Proof.
  induction n as [|n IH]; intros from; [reflexivity|].
  cbn [for_loop seq flat_map]. rewrite calls_bind.
  destruct (result (body from tt)). rewrite IH. reflexivity.
Qed.

Lemma closing_after_last (v : nat -> F) (n : nat) :
  forall from,
    (from + n)%nat = N_AXIS -> (0 < n)%nat ->
    flat_map (fun i => [Float (v i);
                        PgmString (if before_last_axis i then "," else "]" ++ CRLF)])
             (seq from n)
    = comma_between (map v (seq from n)) ++ [PgmString ("]" ++ CRLF)].
Proof.
  induction n as [|n IH]; intros from Hlen Hpos; [lia|].
  cbn [seq flat_map map app]. unfold before_last_axis at 1.
  destruct n as [|n].
  - destruct (Z.ltb_spec (Z.of_nat from) (Z.of_nat N_AXIS - 1)); [lia|]. reflexivity.
  - destruct (Z.ltb_spec (Z.of_nat from) (Z.of_nat N_AXIS - 1)); [|lia].
    rewrite (IH (S from)) by lia. reflexivity.
Qed.

Lemma print_offsets_calls (data : list F) :
  calls (print_offsets settings data) =
    match N_AXIS with
    | O => []
    | S _ => comma_between (map (offset_value settings data) (seq 0 N_AXIS))
             ++ [PgmString ("]" ++ CRLF)]
    end.
Proof.
  unfold print_offsets. rewrite for_loop_unit_calls.
  rewrite (flat_map_ext _
             (fun i => [Float (offset_value settings data i);
                        PgmString (if before_last_axis i then "," else "]" ++ CRLF)])).
  - destruct N_AXIS as [|n] eqn:Haxes; [reflexivity|].
    rewrite <- Haxes. apply closing_after_last; lia.
  - intros i. unfold offset_value.
    destruct (bit_istrue (flags settings) BITFLAG_REPORT_INCHES), (before_last_axis i);
      reflexivity.
Qed.

(** X5. The axis loop of a coordinate line and of the G92 line prints one
    value per axis with commas between the values only; the closing
    "]\r\n" is printed by the turn of the last axis, so with at least one
    axis the line is closed exactly once, at its end, and in a build with no
    axis it would be left open.  A value is the stored offset, times the
    inch factor when inches are reported. *)
Theorem coordinate_line_closing (data : list F) :
  calls (print_offsets settings data) =
    match N_AXIS with
    | O => []
    | S _ => comma_between (map (offset_value settings data) (seq 0 N_AXIS))
             ++ [PgmString ("]" ++ CRLF)]
    end.
Proof. exact (print_offsets_calls data). Qed.

Lemma report_status_message_no_read (code : Z) :
  List.Forall (fun c => is_read c = false) (calls (report_status_message (F:=F) code)).
Proof.
  unfold report_status_message.
  destruct (to_uint8 code =? 0); [repeat constructor|].
  repeat step_bind. apply Forall_app. split; [repeat constructor|].
  apply Forall_app. split; [|repeat constructor].
  apply (switch_elim
           (fun k : io F unit => List.Forall (fun c => is_read c = false) (calls k)));
    repeat constructor.
Qed.

Lemma filter_probe_frame (p : call F -> bool) :
  (forall c, is_mark c = false -> p c = false) ->
  List.filter p (calls (report_probe_parameters settings sys)) =
    List.filter p [PgmString "[Probe:"].
Proof.
  intros Hp. rewrite report_probe_parameters_calls, !List.filter_app.
  rewrite filter_comma_between by (apply Hp; reflexivity).
  rewrite filter_not_floats by (intros v; apply Hp; reflexivity).
  cbn [List.filter app]. rewrite (Hp (PgmString ("]" ++ CRLF))) by reflexivity.
  rewrite app_nil_r. reflexivity.
Qed.

(** The marks of a complete dump. *)
Lemma filter_complete_dump (p : call F -> bool) :
  (forall c, is_mark c = false -> p c = false) ->
  (forall slot, (slot <= SETTING_INDEX_NCOORD)%nat -> store slot <> None) ->
  List.filter p (calls (report_ngc_parameters settings sys gc_state store)) =
    flat_map (fun slot => List.filter p [ReadCoordData (Z.of_nat slot); PgmString "[G"])
             (seq 0 (S SETTING_INDEX_NCOORD))
    ++ List.filter p [PgmString "[G92:"; PgmString "[Probe:"].
Proof.
  intros Hp Hall. rewrite (report_ngc_parameters_complete settings sys gc_state store Hall).
  rewrite !List.filter_app.
  rewrite (filter_slot_calls settings store p
             (fun slot => List.filter p [ReadCoordData (Z.of_nat slot); PgmString "[G"])).
  - rewrite (filter_no_mark p _ Hp (no_mark_print_offsets settings _)).
    rewrite (filter_probe_frame p Hp). cbn [List.filter app].
    destruct (p (PgmString "[G92:")); reflexivity.
  - intros slot coord_data. apply filter_coord_line_calls. exact Hp.
  - intros slot Hslot. apply in_seq in Hslot. apply Hall. lia.
Qed.

Lemma is_read_not_mark (c : call F) : is_mark c = false -> is_read c = false.
Proof. unfold is_mark. destruct (is_read c); [discriminate | reflexivity]. Qed.

Lemma is_fixed_not_mark (s : string) (c : call F) :
  In s ["[G"; "error: "; "[G92:"; "[Probe:"]%string ->
  is_mark c = false -> is_fixed s c = false.
Proof.
  unfold is_mark. intros Hs Hc.
  apply orb_false_iff in Hc. destruct Hc as [Hc Hprobe].
  apply orb_false_iff in Hc. destruct Hc as [Hc Hg92].
  apply orb_false_iff in Hc. destruct Hc as [Hc Herror].
  apply orb_false_iff in Hc. destruct Hc as [_ Hg].
  cbn in Hs. destruct Hs as [<-|[<-|[<-|[<-|[]]]]]; assumption.
Qed.

(** X6. Whatever the store holds, [report_ngc_parameters] reads the slots
    in ascending order starting with slot 0, each at most once: it makes
    between 1 and [SETTING_INDEX_NCOORD + 1] reads, every slot before the
    last one read could be read, and it stops short of the last slot only
    on a slot that cannot be read. *)
Theorem report_ngc_parameters_read_order :
  exists m,
    (1 <= m <= S SETTING_INDEX_NCOORD)%nat
    /\ read_attempts (calls (report_ngc_parameters settings sys gc_state store)) =
         map (fun slot => ReadCoordData (Z.of_nat slot)) (seq 0 m)
    /\ (forall slot, (S slot < m)%nat -> store slot <> None)
    /\ ((m < S SETTING_INDEX_NCOORD)%nat -> store (m - 1)%nat = None).
Proof.
  destruct (first_read_failure store (S SETTING_INDEX_NCOORD)) as [Hall|[k [Hk [Hnone Hbefore]]]].
  - exists (S SETTING_INDEX_NCOORD). split; [lia|]. split; [|split].
    + unfold read_attempts. rewrite (filter_complete_dump is_read is_read_not_mark)
        by (intros slot Hslot; apply Hall; lia).
      cbn [List.filter is_read]. rewrite app_nil_r.
      generalize (seq 0 (S SETTING_INDEX_NCOORD)). intros l.
      induction l as [|x l IH]; [reflexivity|]. cbn. rewrite IH. reflexivity.
    + intros slot Hslot. apply Hall. lia.
    + lia.
  - exists (S k). split; [lia|]. split; [|split].
    + rewrite (report_ngc_parameters_failure settings sys gc_state store k)
        by (assumption || lia).
      unfold read_attempts. rewrite List.filter_app.
      rewrite (filter_slot_calls settings store is_read
                 (fun slot => [ReadCoordData (Z.of_nat slot)])).
      * cbn [List.filter is_read].
        rewrite (filter_none is_read _ (report_status_message_no_read _)).
        rewrite seq_S, map_app. cbn [map Nat.add]. f_equal.
      * intros slot coord_data. rewrite filter_coord_line_calls by exact is_read_not_mark.
        reflexivity.
      * intros slot Hslot. apply in_seq in Hslot. apply Hbefore. lia.
    + intros slot Hslot. apply Hbefore. lia.
    + intros _. replace (S k - 1)%nat with k by lia. exact Hnone.
Qed.

Lemma filter_closer_coord_line (slot : nat) (coord_data : list F) :
  (0 < N_AXIS)%nat ->
  List.filter (is_fixed ("]" ++ CRLF)) (coord_line_calls settings slot coord_data) =
    [PgmString ("]" ++ CRLF)].
Proof.
  intros Haxes. unfold coord_line_calls. rewrite print_offsets_calls.
  destruct N_AXIS as [|n] eqn:Hn; [lia|]. rewrite <- Hn.
  rewrite !List.filter_app, filter_comma_between by reflexivity.
  rewrite filter_not_floats by reflexivity.
  destruct (slot =? 6)%nat; [reflexivity|]. destruct (slot =? 7)%nat; reflexivity.
Qed.

(** X7. With at least one axis and every slot readable, the dump is
    complete and well formed: all [SETTING_INDEX_NCOORD + 1] slots are read,
    in order; there is one coordinate line per slot, then one G92 line and
    one probe frame, and no error frame; and each of these
    [SETTING_INDEX_NCOORD + 3] frames is closed by its "]\r\n". *)
Theorem report_ngc_parameters_complete_dump :
  (0 < N_AXIS)%nat ->
  (forall slot, (slot <= SETTING_INDEX_NCOORD)%nat -> store slot <> None) ->
  read_attempts (calls (report_ngc_parameters settings sys gc_state store)) =
    map (fun slot => ReadCoordData (Z.of_nat slot)) (seq 0 (S SETTING_INDEX_NCOORD))
  /\ count_fixed "[G" (calls (report_ngc_parameters settings sys gc_state store)) =
       S SETTING_INDEX_NCOORD
  /\ count_fixed "[G92:" (calls (report_ngc_parameters settings sys gc_state store)) = 1%nat
  /\ count_fixed "[Probe:" (calls (report_ngc_parameters settings sys gc_state store)) = 1%nat
  /\ count_fixed "error: " (calls (report_ngc_parameters settings sys gc_state store)) = 0%nat
  /\ count_fixed ("]" ++ CRLF) (calls (report_ngc_parameters settings sys gc_state store)) =
       (SETTING_INDEX_NCOORD + 3)%nat.
Proof.
  intros Haxes Hall.
  assert (Hone : forall (c : call F) (l : list nat),
             length (flat_map (fun _ : nat => [c]) l) = length l).
  { intros c l. induction l as [|x l IH]; [reflexivity|]. cbn. rewrite IH. reflexivity. }
  split; [|split; [|split; [|split; [|split]]]].
  - unfold read_attempts. rewrite (filter_complete_dump is_read is_read_not_mark Hall).
    cbn [List.filter is_read]. rewrite app_nil_r.
    generalize (seq 0 (S SETTING_INDEX_NCOORD)). intros l.
    induction l as [|x l IH]; [reflexivity|]. cbn. rewrite IH. reflexivity.
  - unfold count_fixed.
    rewrite (filter_complete_dump (is_fixed "[G")) by
      (try exact Hall; intros c; apply is_fixed_not_mark; cbn; tauto).
    rewrite length_app.
    rewrite (Hone (PgmString "[G")), length_seq. cbn. lia.
  - unfold count_fixed.
    rewrite (filter_complete_dump (is_fixed "[G92:")) by
      (try exact Hall; intros c; apply is_fixed_not_mark; cbn; tauto).
    rewrite length_app, (flat_map_none (B:=call F)). reflexivity.
  - unfold count_fixed.
    rewrite (filter_complete_dump (is_fixed "[Probe:")) by
      (try exact Hall; intros c; apply is_fixed_not_mark; cbn; tauto).
    rewrite length_app, (flat_map_none (B:=call F)). reflexivity.
  - unfold count_fixed.
    rewrite (filter_complete_dump (is_fixed "error: ")) by
      (try exact Hall; intros c; apply is_fixed_not_mark; cbn; tauto).
    rewrite length_app, (flat_map_none (B:=call F)). reflexivity.
  - unfold count_fixed.
    rewrite (report_ngc_parameters_complete settings sys gc_state store Hall).
    rewrite !List.filter_app, !length_app.
    rewrite (filter_slot_calls settings store (is_fixed ("]" ++ CRLF))
               (fun _ => [PgmString ("]" ++ CRLF)])).
    + rewrite (Hone (PgmString ("]" ++ CRLF))), length_seq.
      rewrite print_offsets_calls, report_probe_parameters_calls.
      destruct N_AXIS as [|n] eqn:Hn; [lia|]. rewrite <- Hn.
      rewrite !List.filter_app, !filter_comma_between by reflexivity.
      rewrite !filter_not_floats by reflexivity.
      cbn. rewrite !Ascii.eqb_refl. cbn. lia.
    + intros slot coord_data. apply filter_closer_coord_line. exact Haxes.
    + intros slot Hslot. apply in_seq in Hslot. apply Hall. lia.
Qed.

End CoordinateDumpMore.

Section WorkPositionValues.

Context {F : Type} `{FloatArith F} `{system_h} `{settings_h} `{nuts_bolts_h F} `{config_h}.

Lemma values_after_wpos (settings : settings_t F) (sys : system_t)
    (gc_state : parser_state_t F) (block : option plan_block_t) :
  values_after "WPos:" (calls (report_realtime_status settings sys gc_state block)) =
    imap (fun i m => f_sub m (work_offset settings gc_state i))
         (map (machine_position settings sys) (seq 0 N_AXIS)).
Proof.
  rewrite report_realtime_status_calls.
  rewrite values_after_state_token by reflexivity.
  cbn [app values_after String.eqb Ascii.eqb Bool.eqb].
  rewrite values_after_comma_after_each by discriminate.
  cbn [app values_after String.eqb Ascii.eqb Bool.eqb].
  apply values_run_comma_between, values_run_status_line_end.
Qed.

Lemma imap_same {A} (f : nat -> A -> A) (l : list A) :
  (forall i x, f i x = x) -> imap f l = l.
Proof.
  revert f. induction l as [|x l IH]; intros f Hf; [reflexivity|].
  rewrite imap_cons, Hf. f_equal. apply IH. intros i y. apply Hf.
Qed.

End WorkPositionValues.

Section ZeroOffsets.

Context `{system_h} `{settings_h} `{nuts_bolts_h spec_float} `{config_h}.

Lemma binary32_sub_zero (x : spec_float) : f_sub x (S754_zero false) = x.
Proof. destruct x as [[|]|[|]| |[|] m e]; reflexivity. Qed.

Lemma lookup_total_all_zero (l : list spec_float) (i : nat) :
  List.Forall (fun x => x = S754_zero false) l -> l !!! i = S754_zero false.
Proof.
  intros Hall. revert i. induction Hall as [|x l Hx Hall IH]; intros i.
  - destruct i; reflexivity.
  - destruct i as [|i]; [exact Hx | exact (IH i)].
Qed.

(** X8. In binary32 arithmetic, with every coordinate-system offset and
    every G92 offset equal to zero and a positive finite inch factor, the
    work position printed is the machine position printed, on every axis,
    for every position, calibration and unit setting. *)
Theorem report_realtime_status_zero_offsets
    (settings : settings_t spec_float) (sys : system_t)
    (gc_state : parser_state_t spec_float) (block : option plan_block_t) :
  (exists m e, INCH_PER_MM = S754_finite false m e) ->
  List.Forall (fun x => x = S754_zero false) (coord_system gc_state) ->
  List.Forall (fun x => x = S754_zero false) (coord_offset gc_state) ->
  values_after "WPos:" (calls (report_realtime_status settings sys gc_state block)) =
    values_after ",MPos:" (calls (report_realtime_status settings sys gc_state block)).
Proof.
  intros [m [e Hinch]] Hsystem Hoffset.
  rewrite values_after_wpos, values_after_mpos.
  apply imap_same. intros i x.
  unfold work_offset.
  rewrite (lookup_total_all_zero _ i Hsystem), (lookup_total_all_zero _ i Hoffset).
  rewrite Hinch.
  destruct (bit_istrue (flags settings) BITFLAG_REPORT_INCHES); apply binary32_sub_zero.
Qed.

End ZeroOffsets.

Section ParserModes.

Context {F : Type} `{FloatArith F} `{gcode_h} `{config_h_coolant}.

Variable gc_state : parser_modes_t F.

Lemma switch_word_calls (prefix : string) (words : list (Z * string)) (x : Z) (word : string) :
  NoDup (map fst words) -> In (x, word) words ->
  calls (switch x
           (map (fun lw : Z * string => (fst lw, printPgmString (F:=F) (prefix ++ snd lw))) words)
           (ret tt))
  = [PgmString (prefix ++ word)].
Proof.
  intros Hnd Hin.
  rewrite (switch_hit _ _ x (printPgmString (prefix ++ word))); [reflexivity| |].
  - rewrite map_map. exact Hnd.
  - apply (in_map (fun lw : Z * string => (fst lw, printPgmString (F:=F) (prefix ++ snd lw))))
      in Hin. exact Hin.
Qed.

Lemma report_gcode_modes_calls :
  calls (report_gcode_modes gc_state) =
    calls (switch (Modal.motion (modal gc_state))
             (map (fun lw : Z * string => (fst lw, printPgmString (F:=F) ("[" ++ snd lw)))
                  motion_words) (ret tt))
    ++ [PgmString " G"; UnsignedBase10 (Modal.coord_select (modal gc_state) + 54)]
    ++ calls (switch (Modal.plane_select (modal gc_state))
                (map (fun lw : Z * string => (fst lw, printPgmString (F:=F) (" " ++ snd lw)))
                     plane_words) (ret tt))
    ++ [PgmString (" " ++ units_word (modal gc_state));
        PgmString (" " ++ distance_word (modal gc_state));
        PgmString (" " ++ feed_rate_word (modal gc_state))]
    ++ calls (switch (Modal.program_flow (modal gc_state))
                (map (fun lw : Z * string => (fst lw, printPgmString (F:=F) (" " ++ snd lw)))
                     program_flow_words) (ret tt))
    ++ calls (switch (Modal.spindle (modal gc_state))
                (map (fun lw : Z * string => (fst lw, printPgmString (F:=F) (" " ++ snd lw)))
                     spindle_words) (ret tt))
    ++ calls (switch (Modal.coolant (modal gc_state))
                (map (fun lw : Z * string => (fst lw, printPgmString (F:=F) (" " ++ snd lw)))
                     coolant_words) (ret tt))
    ++ [PgmString " T"; UnsignedBase10 (tool gc_state);
        PgmString " F"; Float (feed_rate gc_state);
        PgmString ("]" ++ CRLF)].
Proof.
  unfold report_gcode_modes, units_word, distance_word, feed_rate_word, coolant_words.
  repeat step_bind.
  destruct ENABLE_M7;
    destruct (Modal.units (modal gc_state) =? UNITS_MODE_MM);
    destruct (Modal.distance (modal gc_state) =? DISTANCE_MODE_ABSOLUTE);
    destruct (Modal.feed_rate (modal gc_state) =? FEED_RATE_MODE_INVERSE_TIME);
    cbn [calls printPgmString print_unsigned_base10 printFloat emit fst app];
    rewrite <- ?app_assoc; reflexivity.
Qed.

(** X10. When every modal group holds one of its values, the line of
    [report_gcode_modes] has one word per group in a fixed order: "[", the
    motion word, the coordinate system as G and 54 plus its index, the
    plane, units, distance, feed-rate-mode, program-flow, spindle and
    coolant words, then T and the tool, F and the feed rate, and "]\r\n".
    The case labels of each switch are pairwise distinct. *)
Theorem report_gcode_modes_line (dp : Z) (motion plane flow spindle coolant : string) :
  NoDup (map fst motion_words) -> NoDup (map fst plane_words) ->
  NoDup (map fst program_flow_words) -> NoDup (map fst spindle_words) ->
  NoDup (map fst coolant_words) ->
  In (Modal.motion (modal gc_state), motion) motion_words ->
  In (Modal.plane_select (modal gc_state), plane) plane_words ->
  In (Modal.program_flow (modal gc_state), flow) program_flow_words ->
  In (Modal.spindle (modal gc_state), spindle) spindle_words ->
  In (Modal.coolant (modal gc_state), coolant) coolant_words ->
  serial_text dp (calls (report_gcode_modes gc_state)) =
    ("[" ++ motion
     ++ " G" ++ print_unsigned_base10_text (Modal.coord_select (modal gc_state) + 54)
     ++ " " ++ plane
     ++ " " ++ units_word (modal gc_state)
     ++ " " ++ distance_word (modal gc_state)
     ++ " " ++ feed_rate_word (modal gc_state)
     ++ " " ++ flow ++ " " ++ spindle ++ " " ++ coolant
     ++ " T" ++ print_unsigned_base10_text (tool gc_state)
     ++ " F" ++ printFloat_text dp (feed_rate gc_state)
     ++ "]" ++ CRLF)%string.
Proof.
  intros Hm Hp Hf Hs Hc Hmotion Hplane Hflow Hspindle Hcoolant.
  rewrite report_gcode_modes_calls.
  rewrite (switch_word_calls "[" _ _ _ Hm Hmotion).
  rewrite (switch_word_calls " " _ _ _ Hp Hplane).
  rewrite (switch_word_calls " " _ _ _ Hf Hflow).
  rewrite (switch_word_calls " " _ _ _ Hs Hspindle).
  rewrite (switch_word_calls " " _ _ _ Hc Hcoolant).
  cbn [app serial_text fold_right call_text String.append].
  rewrite string_app_nil_r. reflexivity.
Qed.

Lemma no_coolant_word_switch (prefix : string) (words : list (Z * string)) (x : Z) :
  List.Forall (fun lw : Z * string =>
                 is_fixed " M7" (PgmString (F:=F) (prefix ++ snd lw)) = false
                 /\ is_fixed " M8" (PgmString (F:=F) (prefix ++ snd lw)) = false
                 /\ is_fixed " M9" (PgmString (F:=F) (prefix ++ snd lw)) = false) words ->
  List.Forall (fun c : call F => is_fixed " M7" c = false /\ is_fixed " M8" c = false
                                 /\ is_fixed " M9" c = false)
    (calls (switch x
              (map (fun lw : Z * string => (fst lw, printPgmString (F:=F) (prefix ++ snd lw))) words)
              (ret tt))).
Proof.
  intros Hwords.
  apply (switch_elim
           (fun k : io F unit =>
              List.Forall (fun c : call F => is_fixed " M7" c = false /\ is_fixed " M8" c = false
                                             /\ is_fixed " M9" c = false) (calls k))).
  - constructor.
  - rewrite map_map. apply List.Forall_map.
    eapply List.Forall_impl; [|exact Hwords].
    intros lw Hlw. cbn [snd calls printPgmString emit fst]. constructor; [exact Hlw|constructor].
Qed.

(** X11. The edges of [report_gcode_modes].  A motion mode outside the
    five values loses the opening bracket: the line starts with " G".  In a
    build without M7, a coolant state that is neither disabled nor flood
    (mist) prints no coolant word at all.  And whatever the modal state,
    the line ends with T and the tool, F and the feed rate, and "]\r\n". *)
Theorem report_gcode_modes_edges (dp : Z) :
  (~ In (Modal.motion (modal gc_state)) (map fst motion_words) ->
   exists rest,
     serial_text dp (calls (report_gcode_modes gc_state)) = (" G" ++ rest)%string)
  /\ (ENABLE_M7 = false ->
      ~ In (Modal.coolant (modal gc_state)) [COOLANT_DISABLE; COOLANT_FLOOD_ENABLE] ->
      List.Forall (fun c : call F => is_fixed " M7" c = false /\ is_fixed " M8" c = false
                                     /\ is_fixed " M9" c = false)
        (calls (report_gcode_modes gc_state)))
  /\ (exists body,
        serial_text dp (calls (report_gcode_modes gc_state)) =
          (body ++ " T" ++ print_unsigned_base10_text (tool gc_state)
           ++ " F" ++ printFloat_text dp (feed_rate gc_state) ++ "]" ++ CRLF)%string).
Proof.
  rewrite report_gcode_modes_calls. split; [|split].
  - intros Hmotion. rewrite switch_miss by (rewrite map_map; exact Hmotion).
    eexists. cbn [calls ret fst app serial_text fold_right call_text String.append].
    reflexivity.
  - intros Hm7 Hcoolant.
    rewrite (switch_miss _ _ (Modal.coolant (modal gc_state))).
    2:{ rewrite map_map. unfold coolant_words. rewrite Hm7. exact Hcoolant. }
    repeat (apply Forall_app; split).
    + apply no_coolant_word_switch. repeat constructor.
    + repeat constructor.
    + apply no_coolant_word_switch. repeat constructor.
    + unfold units_word, distance_word, feed_rate_word.
      destruct (Modal.units (modal gc_state) =? UNITS_MODE_MM),
        (Modal.distance (modal gc_state) =? DISTANCE_MODE_ABSOLUTE),
        (Modal.feed_rate (modal gc_state) =? FEED_RATE_MODE_INVERSE_TIME);
        repeat constructor.
    + apply no_coolant_word_switch. repeat constructor.
    + apply no_coolant_word_switch. repeat constructor.
    + constructor.
    + repeat constructor.
  - rewrite !app_assoc. rewrite serial_text_app. eexists.
    cbn [serial_text fold_right call_text String.append].
    rewrite string_app_nil_r. reflexivity.
Qed.

End ParserModes.

Section StartupLine.

Context {F : Type} `{FloatArith F}.

Lemma string_length_app (a b : string) :
  String.length (a ++ b) = (String.length a + String.length b)%nat.
Proof. induction a as [|x a IH]; [reflexivity|]. cbn. rewrite IH. reflexivity. Qed.

Lemma string_app_inv_tail (a b c : string) : (a ++ c = b ++ c)%string -> a = b.
Proof.
  revert b. induction a as [|x a IH]; intros [|y b] Heq.
  - reflexivity.
  - apply (f_equal String.length) in Heq. cbn in Heq.
    rewrite string_length_app in Heq. lia.
  - apply (f_equal String.length) in Heq. cbn in Heq.
    rewrite string_length_app in Heq. lia.
  - cbn in Heq. injection Heq as -> Heq. f_equal. exact (IH _ Heq).
Qed.

(** Two texts cut at the first occurrence of a character agree piece by
    piece. *)
Lemma string_split_at_char (c : ascii) (a : string) :
  forall a' b b',
    has_char c a = false -> has_char c a' = false ->
    (a ++ String c b = a' ++ String c b')%string -> a = a' /\ b = b'.
Proof.
  induction a as [|x a IH]; intros [|y a'] b b' Ha Ha' Heq.
  - cbn in Heq. injection Heq as ->. split; reflexivity.
  - cbn in Heq. injection Heq as <- _. cbn in Ha'.
    rewrite Ascii.eqb_refl in Ha'. discriminate.
  - cbn in Heq. injection Heq as -> _. cbn in Ha.
    rewrite Ascii.eqb_refl in Ha. discriminate.
  - cbn in Heq. injection Heq as -> Heq. cbn in Ha, Ha'.
    apply orb_false_iff in Ha. apply orb_false_iff in Ha'.
    destruct (IH a' b b' (proj2 Ha) (proj2 Ha') Heq) as [-> ->]. split; reflexivity.
Qed.

Lemma digit_char_not_equals (d : Z) : 0 <= d < 10 -> digit_char d <> "="%char.
Proof.
  intros Hd.
  assert (Hcases : d = 0 \/ d = 1 \/ d = 2 \/ d = 3 \/ d = 4 \/ d = 5 \/ d = 6
                   \/ d = 7 \/ d = 8 \/ d = 9) by lia.
  repeat (destruct Hcases as [->|Hcases]; [discriminate|]). subst d. discriminate.
Qed.

Lemma extract_digits_not_equals (buf : nat) :
  forall n x, In x (extract_digits buf n) -> x <> "="%char.
Proof.
  induction buf as [|buf IH]; intros n x Hin; [contradiction|].
  cbn [extract_digits] in Hin. destruct (0 <? n); [|contradiction].
  destruct Hin as [<-|Hin].
  - apply digit_char_not_equals, Z.mod_pos_bound. lia.
  - exact (IH _ _ Hin).
Qed.

Lemma print_unsigned_base10_text_not_equals (n : Z) :
  has_char "=" (print_unsigned_base10_text n) = false.
Proof.
  unfold print_unsigned_base10_text. destruct (to_uint8 n =? 0); [reflexivity|].
  unfold emit_reversed. apply has_char_of_list. intros x Hin.
  apply in_rev in Hin. exact (extract_digits_not_equals _ _ _ Hin).
Qed.

(** The number can be read back from its decimal text. *)
Lemma text_value_print_unsigned_base10 (n : Z) :
  0 <= n < 256 -> text_value (print_unsigned_base10_text n) = n.
Proof.
  intros Hn. unfold print_unsigned_base10_text. rewrite to_uint8_small by lia.
  destruct (Z.eqb_spec n 0) as [->|Hne]; [reflexivity|].
  unfold text_value, emit_reversed.
  rewrite list_ascii_of_string_of_list_ascii, rev_involutive.
  apply extract_digits_value. change (10 ^ Z.of_nat 10) with 10000000000. lia.
Qed.

Lemma report_startup_line_text (dp n : Z) (line : string) :
  serial_text dp (calls (report_startup_line (F:=F) n line)) =
    ("$N" ++ print_unsigned_base10_text (to_uint8 n) ++ String "=" (line ++ CRLF))%string.
Proof.
  unfold report_startup_line. repeat step_bind.
  cbn [calls printPgmString printString print_unsigned_base10 emit fst app].
  cbn [serial_text fold_right call_text String.append].
  rewrite string_app_nil_r. reflexivity.
Qed.

(** X12. A startup line frame is "$N", the number, "=", the line and
    "\r\n", and nothing is lost in it: two frames with the same text were
    made from the same number (a [uint8_t]) and the same line, whatever the
    line contains. *)
Theorem report_startup_line_injective (dp n n' : Z) (line line' : string) :
  0 <= n < 256 -> 0 <= n' < 256 ->
  serial_text dp (calls (report_startup_line (F:=F) n line)) =
    serial_text dp (calls (report_startup_line (F:=F) n' line')) ->
  n = n' /\ line = line'.
Proof.
  intros Hn Hn' Heq. rewrite !report_startup_line_text in Heq.
  rewrite !to_uint8_small in Heq by lia.
  cbn [String.append] in Heq. injection Heq as Heq.
  apply string_split_at_char in Heq; try apply print_unsigned_base10_text_not_equals.
  destruct Heq as [Hnumber Hline]. split.
  - rewrite <- (text_value_print_unsigned_base10 n Hn), Hnumber.
    apply text_value_print_unsigned_base10. exact Hn'.
  - exact (string_app_inv_tail _ _ _ Hline).
Qed.

End StartupLine.

Section SettingsLayout.

Context {F : Type} `{FloatArith F} `{settings_h} `{nuts_bolts_h F}.

(** X13. The layout of the settings dump does not depend on the settings:
    with every number replaced by "#", it is always 31 rows ended by
    "\r\n" and nothing after them, and row [index] starts with "$", the
    index in decimal and "=#": the settings come in index order, $0 to
    $30. *)
Theorem report_grbl_settings_layout (settings : settings_t F) :
  length (split_on LF (layout (calls (report_grbl_settings settings)))) = 32%nat
  /\ split_on LF (layout (calls (report_grbl_settings settings))) !! 31%nat = Some EmptyString
  /\ forall index, (index < 31)%nat ->
       exists row,
         split_on LF (layout (calls (report_grbl_settings settings))) !! index = Some row
         /\ String.prefix ("$" ++ decimal_notation (Z.of_nat index) ++ "=#") row = true
         /\ ends_with (String CR EmptyString) row = true.
Proof.
  split; [vm_compute; reflexivity|]. split; [vm_compute; reflexivity|].
  intros index Hindex.
  assert (Hall : forallb
            (fun index =>
               match split_on LF (layout (calls (report_grbl_settings settings))) !! index with
               | Some row =>
                   String.prefix ("$" ++ decimal_notation (Z.of_nat index) ++ "=#") row
                   && ends_with (String CR EmptyString) row
               | None => false
               end) (seq 0 31) = true) by (vm_compute; reflexivity).
  rewrite forallb_forall in Hall.
  specialize (Hall index). rewrite in_seq in Hall. specialize (Hall ltac:(lia)).
  destruct (split_on LF (layout (calls (report_grbl_settings settings))) !! index) as [row|];
    [|discriminate].
  exists row. apply andb_true_iff in Hall. destruct Hall as [Hprefix Hend].
  split; [reflexivity|]. split; assumption.
Qed.

End SettingsLayout.

(** ** The statements at work on the example build *)

Import Example.

Lemma report_status_message_frames_witness :
  NoDup status_codes
  /\ serial_text 3 (calls (report_status_message (F:=spec_float) 0)) = ("ok" ++ CRLF)%string
  /\ serial_text 3 (calls (report_status_message (F:=spec_float) 7)) =
       ("error: EEPROM read fail. Using defaults" ++ CRLF)%string
  /\ serial_text 3 (calls (report_status_message (F:=spec_float) 99)) =
       ("error: Invalid gcode ID:99" ++ CRLF)%string.
Proof.
  assert (Hnd : NoDup status_codes) by (refine (bool_decide_unpack _ _); vm_compute; exact I).
  destruct (report_status_message_frames (F:=spec_float) 3 Hnd) as [Hok [Hknown [Hunknown _]]].
  split; [exact Hnd|]. split; [exact Hok|]. split.
  - apply Hknown; [vm_compute; tauto | lia].
  - rewrite (Hunknown 99); [reflexivity | lia | vm_compute; intuition discriminate].
Defined.

Lemma report_alarm_message_frames_witness :
  NoDup alarm_codes
  /\ serial_text 3 (calls (report_alarm_message (F:=spec_float) (-2))) =
       ("ALARM: Abort during cycle" ++ CRLF)%string
  /\ serial_text 3 (calls (report_alarm_message (F:=spec_float) 5)) = ("ALARM: " ++ CRLF)%string.
Proof.
  assert (Hnd : NoDup alarm_codes) by (refine (bool_decide_unpack _ _); vm_compute; exact I).
  destruct (report_alarm_message_frames (F:=spec_float) 3 Hnd) as [Hknown [Hunknown _]].
  split; [exact Hnd|]. split.
  - apply Hknown; [vm_compute; tauto | lia].
  - apply Hunknown; [lia | vm_compute; intuition discriminate].
Defined.

Lemma print_unsigned_base10_range_witness :
  0 <= 200 < 256 /\ print_unsigned_base10_text 200 = "200"%string.
Proof.
  split; [lia|].
  rewrite (proj1 (proj2 print_unsigned_base10_range) 200) by lia. reflexivity.
Defined.

Lemma report_realtime_status_run_line_witness :
  serial_text 3 (calls (report_realtime_status Example.settings sys_run gc_zero None)) =
    ("<Run,MPos:10.000,10.000,10.000,WPos:10.000,10.000,10.000>" ++ CRLF)%string.
Proof.
  apply (report_realtime_status_run_line Example.settings sys_run gc_zero None);
    try reflexivity.
  refine (bool_decide_unpack _ _); vm_compute; exact I.
Defined.

Lemma report_realtime_status_delimiter_witness :
  (exists rest,
     serial_text 3 (calls (report_realtime_status Example.settings sys_run gc_zero None)) =
       ("<Run,MPos:" ++ rest)%string)
  /\ (exists rest,
        serial_text 3
          (calls (report_realtime_status Example.settings
                    {| state := 3; position := [0; 0; 0]; probe_position := [0; 0; 0] |}
                    gc_zero None)) =
          (",MPos:" ++ rest)%string)
  /\ has_char "<"
       (serial_text 3
          (calls (report_realtime_status Example.settings
                    {| state := 3; position := [0; 0; 0]; probe_position := [0; 0; 0] |}
                    gc_zero None))) = false.
Proof.
  assert (Hnd : NoDup state_codes) by (refine (bool_decide_unpack _ _); vm_compute; exact I).
  split.
  - destruct (report_realtime_status_delimiter Example.settings sys_run gc_zero None Hnd)
      as [Hknown _].
    apply (Hknown 16 "Run"%string); [vm_compute; tauto | reflexivity].
  - destruct (report_realtime_status_delimiter Example.settings
                {| state := 3; position := [0; 0; 0]; probe_position := [0; 0; 0] |}
                gc_zero None Hnd) as [_ [Hunknown _]].
    destruct Hunknown as [Hstart [_ Hnone]]; [vm_compute; intuition discriminate|].
    split; [exact Hstart|].
    apply Hnone. intros x. apply binary32_printFloat_not_lt.
Defined.

Lemma report_ngc_parameters_read_failure_witness :
  read_attempts (calls (report_ngc_parameters Example.settings sys_run gc_zero store_bad_2)) =
    [ReadCoordData 0; ReadCoordData 1; ReadCoordData 2]
  /\ count_fixed "[G" (calls (report_ngc_parameters Example.settings sys_run gc_zero store_bad_2)) = 2%nat
  /\ count_fixed "error: " (calls (report_ngc_parameters Example.settings sys_run gc_zero store_bad_2)) = 1%nat.
Proof.
  destruct (report_ngc_parameters_read_failure Example.settings sys_run gc_zero store_bad_2 2)
    as [_ Hrest].
  - refine (bool_decide_unpack _ _); vm_compute; exact I.
  - cbn. lia.
  - cbn. lia.
  - reflexivity.
  - intros [|[|slot]] Hslot; [discriminate | discriminate | lia].
  - exact Hrest.
Defined.

Lemma report_ngc_parameters_tail_witness :
  ~ In (PgmString "[G92:") (calls (report_ngc_parameters Example.settings sys_run gc_zero store_bad_2))
  /\ In (PgmString "[Probe:") (calls (report_ngc_parameters Example.settings sys_run gc_zero store_ok)).
Proof.
  split.
  - intros Hin.
    destruct (report_ngc_parameters_tail Example.settings sys_run gc_zero store_bad_2)
      as [[Hg92 _] _].
    apply (Hg92 Hin 2%nat); [cbn; lia | reflexivity].
  - destruct (report_ngc_parameters_tail Example.settings sys_run gc_zero store_ok)
      as [_ [[_ Hprobe] _]].
    apply Hprobe. intros slot _. discriminate.
Defined.

Import ExampleModes.

Lemma report_feedback_message_frames_witness :
  NoDup feedback_codes
  /\ serial_text 3 (calls (report_feedback_message (F:=spec_float) 2)) =
       ("['$H'|'$X' to unlock]" ++ CRLF)%string
  /\ serial_text 3 (calls (report_feedback_message (F:=spec_float) 9)) = ("[]" ++ CRLF)%string.
Proof.
  assert (Hnd : NoDup feedback_codes) by (refine (bool_decide_unpack _ _); vm_compute; exact I).
  destruct (report_feedback_message_frames (F:=spec_float) 3 Hnd) as [Hknown Hunknown].
  split; [exact Hnd|]. split.
  - apply (Hknown 2 "'$H'|'$X' to unlock"%string); [vm_compute; tauto | lia].
  - apply Hunknown; [lia | vm_compute; intuition discriminate].
Defined.

Lemma report_probe_parameters_as_machine_position_witness :
  values_after "[Probe:"
    (calls (report_probe_parameters Example.settings
              {| state := 0; position := [2500; 2500; 2000];
                 probe_position := [2500; 2500; 2000] |})) =
  values_after ",MPos:"
    (calls (report_realtime_status Example.settings
              {| state := 0; position := [2500; 2500; 2000];
                 probe_position := [2500; 2500; 2000] |} gc_zero None)).
Proof.
  apply (report_probe_parameters_as_machine_position Example.settings
           {| state := 0; position := [2500; 2500; 2000];
              probe_position := [2500; 2500; 2000] |} gc_zero None).
  reflexivity.
Defined.

Lemma report_ngc_parameters_complete_dump_witness :
  count_fixed "[G" (calls (report_ngc_parameters Example.settings sys_run gc_zero store_ok)) = 8%nat
  /\ count_fixed ("]" ++ CRLF)
       (calls (report_ngc_parameters Example.settings sys_run gc_zero store_ok)) = 10%nat.
Proof.
  destruct (report_ngc_parameters_complete_dump Example.settings sys_run gc_zero store_ok)
    as [_ [Hlines [_ [_ [_ Hclosed]]]]].
  - cbn. lia.
  - intros slot _. discriminate.
  - split; [exact Hlines | exact Hclosed].
Defined.

Lemma report_realtime_status_zero_offsets_witness :
  values_after "WPos:" (calls (report_realtime_status Example.settings sys_run gc_zero None)) =
    values_after ",MPos:" (calls (report_realtime_status Example.settings sys_run gc_zero None)).
Proof.
  apply (report_realtime_status_zero_offsets Example.settings sys_run gc_zero None).
  - exists 10568331%positive, (-28). reflexivity.
  - repeat constructor.
  - repeat constructor.
Defined.

Lemma report_gcode_modes_line_witness :
  serial_text 3 (calls (report_gcode_modes modes)) =
    ("[G1 G55 G17 G21 G90 G94 M0 M3 M8 T3 F500.000]" ++ CRLF)%string.
Proof.
  rewrite (report_gcode_modes_line modes 3 "G1" "G17" "M0" "M3" "M8");
    first [ reflexivity
          | refine (bool_decide_unpack _ _); vm_compute; exact I
          | vm_compute; tauto ].
Defined.

Lemma report_gcode_modes_edges_witness :
  List.Forall (fun c : call spec_float =>
                 is_fixed " M7" c = false /\ is_fixed " M8" c = false
                 /\ is_fixed " M9" c = false)
    (calls (report_gcode_modes
              {| modal := {| Modal.motion := 1; Modal.coord_select := 1;
                             Modal.plane_select := 0; Modal.units := 0;
                             Modal.distance := 0; Modal.feed_rate := 0;
                             Modal.program_flow := 0; Modal.spindle := 1;
                             Modal.coolant := 1 |};
                 tool := 3; feed_rate := f_of_int 500 |})).
Proof.
  apply (proj1 (proj2 (report_gcode_modes_edges _ 3))).
  - reflexivity.
  - vm_compute. intuition discriminate.
Defined.

Lemma report_startup_line_injective_witness :
  1 = 1 /\ "G20 G54"%string = "G20 G54"%string.
Proof.
  apply (report_startup_line_injective (F:=spec_float) 3 1 1 "G20 G54" "G20 G54");
    [lia | lia | reflexivity].
Defined.

Lemma report_grbl_settings_layout_witness :
  exists row,
    split_on LF (layout (calls (report_grbl_settings Example.settings))) !! 30%nat = Some row
    /\ String.prefix "$30=#" row = true.
Proof.
  destruct (proj2 (proj2 (report_grbl_settings_layout Example.settings)) 30%nat ltac:(lia))
    as [row [Hrow [Hprefix _]]].
  exists row. split; [exact Hrow | exact Hprefix].
Defined.


